(** * Colour/size variant resolution and cart-line building

    A shallow embedding of [app/components/ProductForm.jsx]: the
    [ProductForm] component with its cart-line builder, and the
    [SizeSelectorWithQuantities] component with its per-size display
    computation.  Rendering is left out; every value the components
    compute before rendering is kept.  The development goes on to the
    quantity state and the cells of the size selector, the earlier
    revision of the form, the product page that selects the colour
    product and collects the carousel images, and the carousel index
    of [ProductImage]. *)

From Stdlib Require Import ZArith NArith Ascii String List Bool Lia.
From stdpp Require Import base option strings gmap.
Import ListNotations.

Local Open Scope string_scope.

(** ** JavaScript values used by the component *)

Module JS.

(** Strings are sequences of 8-bit code units, read as the Latin-1
    range of JavaScript's UTF-16 code units. *)

(** [WhiteSpace] and [LineTerminator] code units below 256:
    TAB, LF, VT, FF, CR, SP and NBSP. *)
Definition isWhiteSpace (c : ascii) : bool :=
  let n := nat_of_ascii c in
  (Nat.leb 9 n && Nat.leb n 13) || Nat.eqb n 32 || Nat.eqb n 160.

(** [String.prototype.trimStart]. *)
Fixpoint trimStart (s : string) : string :=
  match s with
  | EmptyString => EmptyString
  | String c s' => if isWhiteSpace c then trimStart s' else s
  end.

(** [String.prototype.trimEnd]. *)
Fixpoint trimEnd (s : string) : string :=
  match s with
  | EmptyString => EmptyString
  | String c s' =>
      match trimEnd s' with
      | EmptyString => if isWhiteSpace c then EmptyString else String c EmptyString
      | t => String c t
      end
  end.

(** [String.prototype.trim]. *)
Definition trim (s : string) : string := trimEnd (trimStart s).

(** Lower-casing of one code unit: A-Z, and the Latin-1 capitals
    U+00C0-U+00DE except the multiplication sign U+00D7. *)
Definition toLowerChar (c : ascii) : ascii :=
  let n := nat_of_ascii c in
  if (Nat.leb 65 n && Nat.leb n 90)
     || (Nat.leb 192 n && Nat.leb n 222 && negb (Nat.eqb n 215))
  then ascii_of_nat (n + 32) else c.

(** [String.prototype.toLowerCase]. *)
Fixpoint toLowerCase (s : string) : string :=
  match s with
  | EmptyString => EmptyString
  | String c s' => String (toLowerChar c) (toLowerCase s')
  end.

(** A possibly absent string ([undefined] and [null] are both [None]). *)
Definition Str := option string.

(** Truthiness of a possibly absent string: absent and the empty
    string are falsy. *)
Definition truthy (s : Str) : bool :=
  match s with
  | Some (String _ _) => true
  | _ => false
  end.

(** [a === b] on possibly absent strings. *)
Definition strictEq (a b : Str) : bool :=
  match a, b with
  | Some x, Some y => String.eqb x y
  | None, None => true
  | _, _ => false
  end.

(** Numbers as [parseFloat] produces them.  [Decimal neg d e] is the
    mathematical value [(-1)^neg * d * 10^e] of a decimal literal;
    the rounding of that value to a double is not represented. *)
Inductive Number :=
| NaN
| Infinity (negative : bool)
| Decimal (negative : bool) (digits : N) (exponent : Z).

(** The literal [0]. *)
Definition zero : Number := Decimal false 0 0.

Definition isZero (x : Number) : bool :=
  match x with
  | Decimal _ d _ => N.eqb d 0
  | _ => false
  end.

Definition isNegative (x : Number) : bool :=
  match x with
  | Decimal neg d _ => neg && negb (N.eqb d 0)
  | Infinity neg => neg
  | NaN => false
  end.

Definition isDigit (c : ascii) : bool :=
  let n := nat_of_ascii c in Nat.leb 48 n && Nat.leb n 57.

Definition digitValue (c : ascii) : N := N.of_nat (nat_of_ascii c - 48).

(** Reads the longest run of [DecimalDigits] at the head of [s] on
    top of the accumulator [acc]: the value read, the number of
    digits consumed, and the rest of the input. *)
Fixpoint readDigits (s : string) (acc : N) (count : nat) : N * nat * string :=
  match s with
  | String c s' =>
      if isDigit c then readDigits s' (acc * 10 + digitValue c)%N (S count)
      else (acc, count, s)
  | EmptyString => (acc, count, s)
  end.

(** [ExponentPart] at the head of [s], when there is a well-formed
    one; otherwise the exponent is not part of the parsed prefix. *)
Definition readExponent (s : string) : Z :=
  match s with
  | String c s' =>
      if (Ascii.eqb c "e" || Ascii.eqb c "E")%char then
        match s' with
        | String sg s'' =>
            if Ascii.eqb sg "-"%char then
              match readDigits s'' 0%N 0 with
              | (_, O, _) => 0%Z
              | (v, _, _) => (- Z.of_N v)%Z
              end
            else if Ascii.eqb sg "+"%char then
              match readDigits s'' 0%N 0 with
              | (_, O, _) => 0%Z
              | (v, _, _) => Z.of_N v
              end
            else
              match readDigits s' 0%N 0 with
              | (_, O, _) => 0%Z
              | (v, _, _) => Z.of_N v
              end
        | EmptyString => 0%Z
        end
      else 0%Z
  | EmptyString => 0%Z
  end.

(** [StrUnsignedDecimalLiteral]: the longest prefix of [s] that is
    one, or [NaN] when no prefix is. *)
Definition readUnsigned (negative : bool) (s : string) : Number :=
  if String.prefix "Infinity" s then Infinity negative else
  match readDigits s 0%N 0 with
  | (ip, ni, String "." r) =>
      match readDigits r ip 0 with
      | (m, nf, r') =>
          match ni, nf with
          | O, O => NaN
          | _, _ => Decimal negative m (readExponent r' - Z.of_nat nf)
          end
      end
  | (_, O, _) => NaN
  | (ip, _, r) => Decimal negative ip (readExponent r)
  end.

(** The global [parseFloat] applied to a string. *)
Definition parseFloat (input : string) : Number :=
  match trimStart input with
  | String "-" r => readUnsigned true r
  | String "+" r => readUnsigned false r
  | t => readUnsigned false t
  end.

(** The property names of [Object.prototype], which every object
    created by an object literal inherits. *)
Definition objectPrototypeNames : list string :=
  [ "constructor"; "__defineGetter__"; "__defineSetter__"; "hasOwnProperty";
    "__lookupGetter__"; "__lookupSetter__"; "isPrototypeOf";
    "propertyIsEnumerable"; "toString"; "valueOf"; "__proto__";
    "toLocaleString" ].

Definition inheritedName (key : string) : bool :=
  List.existsb (String.eqb key) objectPrototypeNames.

(** What [object[key]] gives for an object whose own properties are
    integers: [undefined], an own integer, or the member of
    [Object.prototype] of that name (a function; for [__proto__] the
    prototype object itself). *)
Inductive Property :=
| Absent
| Int (n : Z)
| Inherited (name : string).

(** [object[key]], the object being given by its own properties. *)
Definition get (object : gmap string Z) (key : string) : Property :=
  match object !! key with
  | Some n => Int n
  | None => if inheritedName key then Inherited key else Absent
  end.

(** Truthiness: [undefined] and 0 are falsy, functions and objects
    are truthy. *)
Definition truthyProperty (p : Property) : bool :=
  match p with
  | Absent => false
  | Int n => negb (Z.eqb n 0)
  | Inherited _ => true
  end.

(** [p <= 0] and [p > 0]: a function or an object converts to [NaN],
    as [undefined] does, and every comparison with [NaN] is false. *)
Definition leZero (p : Property) : bool :=
  match p with
  | Int n => Z.leb n 0
  | _ => false
  end.

Definition gtZero (p : Property) : bool :=
  match p with
  | Int n => Z.ltb 0 n
  | _ => false
  end.

(** [p || 0]. *)
Definition orZero (p : Property) : Property :=
  if truthyProperty p then p else Int 0.

End JS.

(** ** Data supplied by the storefront API and by [getProductOptions] *)

(** One entry of a variant's [selectedOptions].  A [null] entry behaves
    in every use ([opt?.name?.toLowerCase()]) as one without a name. *)
Record SelectedOption := {
  optName : JS.Str;
  optValue : JS.Str;
}.

(** The [ProductVariant] fragment, with the fields the component reads:
    [productHandle] is [variant.product?.handle] and [priceAmount] is
    [variant.price?.amount]. *)
Record ProductVariant := {
  variantId : JS.Str;
  availableForSale : bool;
  quantityAvailable : option Z;
  priceAmount : JS.Str;
  productHandle : JS.Str;
  selectedOptions : option (list SelectedOption);
}.

(** One value of a mapped product option. *)
Record OptionValue := {
  valueName : string;
  firstSelectableVariant : option ProductVariant;
  exists_ : bool;
  available : bool;
}.

(** A mapped product option ([MappedProductOptions]). *)
Record ProductOption := {
  optionName : string;
  optionValues : list OptionValue;
}.

(** The product fragment of the selected colour.  A [null] entry of
    [adjacentVariants] behaves as a variant without [selectedOptions]:
    both are skipped by every scan. *)
Record ProductFragment := {
  handle : string;
  title : string;
  adjacentVariants : option (list ProductVariant);
}.

(** A line handed to [AddToCartButton].  Its quantity is read from
    [sizeQuantities], the state object of the form: a plain object
    whose own properties, kept as a [gmap string Z], map a size name to
    the integer typed in its field, and which is read with [JS.get],
    so that a name it does not own can still find a member of
    [Object.prototype]. *)
Record CartLine := {
  merchandiseId : JS.Str;
  quantity : JS.Property;
  selectedVariant : option ProductVariant;
}.

(** [(opt) => opt?.name?.toLowerCase() === 'size'] *)
Definition isSizeOpt (opt : SelectedOption) : bool :=
  JS.strictEq (JS.toLowerCase <$> optName opt) (Some "size").

(** [(option) => option.name.toLowerCase() === 'size'] *)
Definition isSizeOption (option : ProductOption) : bool :=
  String.eqb (JS.toLowerCase (optionName option)) "size".

(** [optionValues.find((v) => v.name === name)] *)
Definition findValue (name : string) (values : list OptionValue) : option OptionValue :=
  List.find (fun v => String.eqb (valueName v) name) values.

(** The trimmed value of a variant's size option:
    [variant.selectedOptions?.find(isSizeOpt)?.value?.trim()]. *)
Definition sizeValueOf (variant : ProductVariant) : JS.Str :=
  opts ← selectedOptions variant;
  opt ← List.find isSizeOpt opts;
  JS.trim <$> optValue opt.

(** The pre-resolved candidate for a size value:
    [effectiveSizeOption?.optionValues.find((v) => v.name === value.name)
     ?.firstSelectableVariant]. *)
Definition candidateFor (effectiveSizeOption : option ProductOption)
    (value : OptionValue) : option ProductVariant :=
  o ← effectiveSizeOption;
  v ← findValue (valueName value) (optionValues o);
  firstSelectableVariant v.

(** ** The body of [ProductForm] for a size option with several values *)

Module ProductForm.
Section Closure.

Variable selectedColorProduct : option ProductFragment.
Variable effectiveSizeOption : option ProductOption.
Variable sizeQuantities : gmap string Z.

(** [findVariantForSize] of [ProductForm] (lines 47-64): the scan of
    the selected colour product's adjacent variants, by size only. *)
Definition findVariantForSize (sizeName : string) : option ProductVariant :=
  match selectedColorProduct with
  | None => None
  | Some colorProduct =>
      match adjacentVariants colorProduct with
      | None => None
      | Some variants =>
          List.find
            (fun variant =>
               match selectedOptions variant with
               | None => false
               | Some opts =>
                   let sizeOption := List.find isSizeOpt opts in
                   JS.strictEq (sizeOption ≫= fun o => JS.trim <$> optValue o)
                               (Some (JS.trim sizeName))
               end)
            variants
      end
  end.

(** The variant chosen for a size value, as both callbacks of the
    cart-line pipeline compute it (lines 73-82 and 89-98). *)
Definition variantFor (value : OptionValue) : option ProductVariant :=
  let variant := findVariantForSize (valueName value) in
  let variant :=
    match variant with
    | Some _ => variant
    | None =>
        let colorSizeValue :=
          effectiveSizeOption ≫= fun o => findValue (valueName value) (optionValues o) in
        colorSizeValue ≫= firstSelectableVariant
    end in
  match variant with
  | Some _ => variant
  | None => firstSelectableVariant value
  end.

(** The first [filter] callback (lines 68-86). *)
Definition wanted (value : OptionValue) : bool :=
  let quantity := JS.get sizeQuantities (valueName value) in
  if negb (JS.truthyProperty quantity) || JS.leZero quantity then false
  else
    match variantFor value with
    | Some variant => JS.truthy (variantId variant) && availableForSale variant
    | None => false
    end.

(** The [map] callback (lines 87-105). *)
Definition toLine (value : OptionValue) : CartLine :=
  let variant := variantFor value in
  {| merchandiseId := variant ≫= variantId;
     quantity := JS.get sizeQuantities (valueName value);
     selectedVariant := variant |}.

(** [cartLines] (lines 67-106). *)
Definition cartLines (sizeOption : ProductOption) : list CartLine :=
  List.filter (fun line => JS.truthy (merchandiseId line))
    (List.map toLine (List.filter wanted (optionValues sizeOption))).

End Closure.
End ProductForm.

(** ** The body of [SizeSelectorWithQuantities] *)

(** What the component computes for one size before rendering it. *)
Record SizeRow := {
  rowVariant : option ProductVariant;
  rowQuantity : JS.Property;
  rowPrice : JS.Number;
  rowAvailable : bool;
  rowStock : Z;
}.

Module SizeSelectorWithQuantities.
Section Closure.

Variable selectedColorProduct : option ProductFragment.
Variable effectiveSizeOption : option ProductOption.
Variable sizeQuantities : gmap string Z.

(** [findVariantForSize] of [SizeSelectorWithQuantities] (lines
    268-310): the scan of the selected colour product's adjacent
    variants, by product handle and size.  The console output is not
    part of the result. *)
Definition findVariantForSize (sizeName : string) : option ProductVariant :=
  match selectedColorProduct with
  | None => None
  | Some colorProduct =>
      match adjacentVariants colorProduct with
      | None => None
      | Some variants =>
          let normalizedSizeName := JS.trim sizeName in
          List.find
            (fun variant =>
               match selectedOptions variant with
               | None => false
               | Some opts =>
                   if negb (JS.strictEq (productHandle variant) (Some (handle colorProduct)))
                   then false
                   else
                     match List.find isSizeOpt opts with
                     | None => false
                     | Some sizeOption =>
                         let variantSizeValue := JS.trim <$> optValue sizeOption in
                         JS.strictEq variantSizeValue (Some normalizedSizeName)
                     end
               end)
            variants
      end
  end.

(** The variant of a size value (lines 333-362). *)
Definition variantFor (value : OptionValue) : option ProductVariant :=
  let variant := findVariantForSize (valueName value) in
  let variant :=
    match variant, selectedColorProduct, effectiveSizeOption with
    | None, Some colorProduct, Some effective =>
        let colorSizeValue := findValue (valueName value) (optionValues effective) in
        match colorSizeValue ≫= firstSelectableVariant with
        | Some candidateVariant =>
            let variantSizeOption :=
              selectedOptions candidateVariant ≫= List.find isSizeOpt in
            let variantSizeValue :=
              variantSizeOption ≫= fun o => JS.trim <$> optValue o in
            if JS.strictEq (productHandle candidateVariant) (Some (handle colorProduct))
               && JS.strictEq variantSizeValue (Some (JS.trim (valueName value)))
            then Some candidateVariant
            else None
        | None => None
        end
    | _, _, _ => variant
    end in
  match variant, selectedColorProduct with
  | None, None => firstSelectableVariant value
  | _, _ => variant
  end.

(** [price] (lines 365-367). *)
Definition priceOf (variant : option ProductVariant) : JS.Number :=
  match variant ≫= priceAmount with
  | Some (String c s) => JS.parseFloat (String c s)
  | _ => JS.zero
  end.

(** [available] (lines 372-389). *)
Definition availableOf (variant : option ProductVariant) (value : OptionValue) : bool :=
  match variant with
  | Some variant =>
      match selectedColorProduct with
      | Some colorProduct =>
          if JS.strictEq (productHandle variant) (Some (handle colorProduct))
          then Bool.eqb (availableForSale variant) true
          else false
      | None => Bool.eqb (availableForSale variant) true
      end
  | None =>
      match selectedColorProduct with
      | None => available value && exists_ value
      | Some _ => false
      end
  end.

(** [stockQuantity] (lines 398-409). *)
Definition stockQuantityOf (variant : option ProductVariant) (available : bool) : Z :=
  match variant ≫= quantityAvailable with
  | Some n => n
  | None => if available then 999%Z else 0%Z
  end.

(** The callback of [sizeOption.optionValues.map] (lines 331-427). *)
Definition row (value : OptionValue) : SizeRow :=
  let variant := variantFor value in
  let quantity := JS.orZero (JS.get sizeQuantities (valueName value)) in
  let price := priceOf variant in
  let available := availableOf variant value in
  let stockQuantity := stockQuantityOf variant available in
  {| rowVariant := variant;
     rowQuantity := quantity;
     rowPrice := price;
     rowAvailable := available;
     rowStock := stockQuantity |}.

Definition rows (sizeOption : ProductOption) : list SizeRow :=
  List.map row (optionValues sizeOption).

End Closure.
End SizeSelectorWithQuantities.

(** ** The [ProductForm] component *)

(** What [ProductForm] hands to its children: the size selector with
    its rows and its add-to-cart button, or the standard form with a
    single add-to-cart button. *)
Inductive Form :=
| SizeForm (rows : list SizeRow) (disabled : bool) (lines : list CartLine)
| StandardForm (disabled : bool) (lines : list CartLine).

Section Component.

(** [getProductOptions] of the storefront library, applied to the
    selected colour product. *)
Variable getProductOptions : ProductFragment -> list ProductOption.

Definition effectiveSizeOptionOf
    (sizeOption : option ProductOption)
    (selectedColorProduct : option ProductFragment) : option ProductOption :=
  let colorProductOptions := getProductOptions <$> selectedColorProduct in
  match colorProductOptions with
  | Some options => List.find isSizeOption options
  | None => sizeOption
  end.

(** [ProductForm] (lines 14-162), given the current [sizeQuantities]
    state. *)
Definition productForm
    (productOptions : list ProductOption)
    (selectedVariant : option ProductVariant)
    (selectedColorProduct : option ProductFragment)
    (sizeQuantities : gmap string Z) : Form :=
  let sizeOption := List.find isSizeOption productOptions in
  let effectiveSizeOption := effectiveSizeOptionOf sizeOption selectedColorProduct in
  let standard :=
    StandardForm
      (match selectedVariant with
       | Some variant => negb (availableForSale variant)
       | None => true
       end)
      (match selectedVariant with
       | Some variant =>
           [ {| merchandiseId := variantId variant;
                quantity := JS.Int 1;
                selectedVariant := Some variant |} ]
       | None => []
       end) in
  match sizeOption with
  | Some sizeOption =>
      if Nat.ltb 1 (length (optionValues sizeOption)) then
        let cartLines :=
          ProductForm.cartLines selectedColorProduct effectiveSizeOption
                                sizeQuantities sizeOption in
        SizeForm
          (SizeSelectorWithQuantities.rows selectedColorProduct effectiveSizeOption
                                           sizeQuantities sizeOption)
          (Nat.eqb (length cartLines) 0)
          cartLines
      else standard
  | None => standard
  end.

End Component.

(** ** The earlier revision of the size selector

    The row computation of the revision of [ProductForm.jsx] that has
    no [selectedColorProduct] property: the variant comes from the
    effective size option or else from the value itself. *)

Module EarlierRevision.

Definition variantFor (effectiveSizeOption : option ProductOption)
    (value : OptionValue) : option ProductVariant :=
  let colorSizeValue :=
    effectiveSizeOption ≫= fun o => findValue (valueName value) (optionValues o) in
  match colorSizeValue ≫= firstSelectableVariant with
  | Some variant => Some variant
  | None => firstSelectableVariant value
  end.

End EarlierRevision.

(** ** A small catalogue used in the examples

    A shirt sold in red and in blue.  The page shown is the blue shirt
    (the base product); the red shirt is the selected colour. *)

Module Catalogue.

Definition variant (id handle color size amount : string) (stock : option Z) : ProductVariant :=
  {| variantId := Some id;
     availableForSale := true;
     quantityAvailable := stock;
     priceAmount := Some amount;
     productHandle := Some handle;
     selectedOptions :=
       Some [ {| optName := Some "Color"; optValue := Some color |};
              {| optName := Some "Size"; optValue := Some size |} ] |}.

Definition redS := variant "gid://shopify/ProductVariant/101" "shirt-red" "Red" "S" "19.99" (Some 12%Z).
Definition redL := variant "gid://shopify/ProductVariant/103" "shirt-red" "Red" "L" "19.99" (Some 3%Z).
Definition blueS := variant "gid://shopify/ProductVariant/201" "shirt-blue" "Blue" "S" "21.50" None.
Definition blueM := variant "gid://shopify/ProductVariant/202" "shirt-blue" "Blue" "M" "21.50" None.
Definition blueL := variant "gid://shopify/ProductVariant/203" "shirt-blue" "Blue" "L" "21.50" None.
Definition blue4XL := variant "gid://shopify/ProductVariant/204" "shirt-blue" "Blue" "4XL" "24.00" None.
Definition greenL := variant "gid://shopify/ProductVariant/303" "shirt-green" "Green" "L" "18.00" None.
Definition blueBackorder := variant "gid://shopify/ProductVariant/207" "shirt-blue" "Blue" "L" "21.50" (Some 0%Z).
Definition blueUnpriced := variant "gid://shopify/ProductVariant/205" "shirt-blue" "Blue" "XS" "N/A" None.
Definition blueCredit := variant "gid://shopify/ProductVariant/206" "shirt-blue" "Blue" "XL" "-5.00" None.

Definition value (name : string) (v : option ProductVariant) : OptionValue :=
  {| valueName := name; firstSelectableVariant := v; exists_ := true; available := true |}.

(** The size option of the blue shirt. *)
Definition blueSizes : ProductOption :=
  {| optionName := "Size";
     optionValues := [ value "S" (Some blueS); value "M" (Some blueM);
                       value "L" (Some blueL); value "4XL" (Some blue4XL) ] |}.

(** The size option of the blue shirt when its value M has no first
    selectable variant. *)
Definition blueSizesGap : ProductOption :=
  {| optionName := "Size";
     optionValues := [ value "S" (Some blueS); value "M" None ] |}.

(** A size option whose first value bears the name of a member of
    [Object.prototype]. *)
Definition oddSizes : ProductOption :=
  {| optionName := "Size";
     optionValues := [ value "constructor" (Some blueS); value "M" (Some blueM) ] |}.

(** The red shirt with both of its variants adjacent. *)
Definition shirtRed : ProductFragment :=
  {| handle := "shirt-red"; title := "Shirt Red";
     adjacentVariants := Some [ redS; redL ] |}.

(** The red shirt with no adjacent variant loaded. *)
Definition shirtRedBare : ProductFragment :=
  {| handle := "shirt-red"; title := "Shirt Red"; adjacentVariants := Some [] |}.

(** The size option of the red shirt. *)
Definition redSizes : ProductOption :=
  {| optionName := "Size";
     optionValues := [ value "S" (Some redS); value "L" (Some redL) ] |}.

(** A size option of the red shirt whose entry for L points at a
    variant of the green shirt. *)
Definition redSizesStale : ProductOption :=
  {| optionName := "Size";
     optionValues := [ value "S" (Some redS); value "L" (Some greenL) ] |}.

End Catalogue.

(** ** The same inputs under other prices

    [withPrice p] replaces the price amount of a variant by [p] of that
    variant and leaves every other field alone; the other functions
    carry it through the inputs and outputs of the form. *)

Definition withPrice (p : ProductVariant -> JS.Str) (v : ProductVariant) : ProductVariant :=
  {| variantId := variantId v;
     availableForSale := availableForSale v;
     quantityAvailable := quantityAvailable v;
     priceAmount := p v;
     productHandle := productHandle v;
     selectedOptions := selectedOptions v |}.

Definition repriceValue (p : ProductVariant -> JS.Str) (value : OptionValue) : OptionValue :=
  {| valueName := valueName value;
     firstSelectableVariant := withPrice p <$> firstSelectableVariant value;
     exists_ := exists_ value;
     available := available value |}.

Definition repriceOption (p : ProductVariant -> JS.Str) (o : ProductOption) : ProductOption :=
  {| optionName := optionName o;
     optionValues := List.map (repriceValue p) (optionValues o) |}.

Definition repriceProduct (p : ProductVariant -> JS.Str) (c : ProductFragment) : ProductFragment :=
  {| handle := handle c;
     title := title c;
     adjacentVariants := List.map (withPrice p) <$> adjacentVariants c |}.

Definition repriceLine (p : ProductVariant -> JS.Str) (line : CartLine) : CartLine :=
  {| merchandiseId := merchandiseId line;
     quantity := quantity line;
     selectedVariant := withPrice p <$> selectedVariant line |}.

(** ** Text functions used by the handlers and by the product page *)

Module JSText.

(** [text.startsWith(prefix)]. *)
Definition startsWith (prefix text : string) : bool := String.prefix prefix text.

(** The text without its first [n] code units. *)
Fixpoint dropUnits (n : nat) (text : string) : string :=
  match n, text with
  | O, _ => text
  | S n', String _ rest => dropUnits n' rest
  | S _, EmptyString => EmptyString
  end.

(** [text.replace(pattern, '')] for a string pattern: the first
    occurrence of the pattern is removed. *)
Fixpoint removeFirst (pattern text : string) : string :=
  if String.prefix pattern text then dropUnits (String.length pattern) text
  else
    match text with
    | EmptyString => EmptyString
    | String c rest => String c (removeFirst pattern rest)
    end.

(** [text.includes(part)]. *)
Fixpoint includes (part text : string) : bool :=
  String.prefix part text ||
  match text with
  | EmptyString => false
  | String _ rest => includes part rest
  end.

(** [parseInt(text, 10)]: [None] is [NaN], and the two zeros are one.
    The integer is exact; the rounding of integers beyond 2^53 is not
    represented. *)
Definition parseInt10 (text : string) : option Z :=
  let trimmed := JS.trimStart text in
  let signed :=
    match trimmed with
    | String "-" rest => (true, rest)
    | String "+" rest => (false, rest)
    | _ => (false, trimmed)
    end in
  match JS.readDigits (snd signed) 0%N 0 with
  | (_, O, _) => None
  | (v, _, _) => Some (if fst signed then (- Z.of_N v)%Z else Z.of_N v)
  end.

End JSText.

(** ** The quantity state of [ProductForm] *)

(** [handleQuantityChange] (lines 39-44), as the update it hands to
    [setSizeQuantities], applied to the previous state. *)
Definition handleQuantityChange (sizeName : string) (quantity : Z)
    (prev : gmap string Z) : gmap string Z :=
  <[sizeName := quantity]> prev.

(** The [onChange] handler of a size's input (lines 440-443), given the
    text of the field. *)
Definition onChange (value : OptionValue) (text : string)
    (prev : gmap string Z) : gmap string Z :=
  let newQuantity := default 0%Z (JSText.parseInt10 text) in
  handleQuantityChange (valueName value) newQuantity prev.

(** ** What a size's cell shows *)

Inductive StockText :=
| Plus999
| Count (n : Z).

Inductive StockView :=
| InStock (text : StockText)
| OutOfStock.

(** The cell of one size (lines 429-463).  The class name carries
    [unavailable] when [cellUnavailable] holds; [cellInputValue] is
    [quantity || ''], with [None] for the empty string; the price is
    kept as a number, its [toFixed(2)] text is not represented. *)
Record SizeCell := {
  cellLabel : string;
  cellUnavailable : bool;
  cellInputValue : option JS.Property;
  cellInputDisabled : bool;
  cellPrice : JS.Number;
  cellStock : StockView;
}.

(** The stock text (lines 450-461). *)
Definition stockView (stockQuantity : Z) : StockView :=
  if Z.ltb 0 stockQuantity
  then InStock (if Z.leb 999 stockQuantity then Plus999 else Count stockQuantity)
  else OutOfStock.

Definition cell (value : OptionValue) (r : SizeRow) : SizeCell :=
  {| cellLabel := valueName value;
     cellUnavailable := negb (rowAvailable r);
     cellInputValue :=
       if JS.truthyProperty (rowQuantity r) then Some (rowQuantity r) else None;
     cellInputDisabled := negb (rowAvailable r);
     cellPrice := rowPrice r;
     cellStock := stockView (rowStock r) |}.

(** The cart line a displayed row stands for: the row's variant with
    the row's quantity, when there is a variant with an identifier, the
    quantity is positive and the row is available. *)
Definition rowLine (r : SizeRow) : option CartLine :=
  match rowVariant r with
  | Some variant =>
      if JS.gtZero (rowQuantity r) && rowAvailable r && JS.truthy (variantId variant)
      then Some {| merchandiseId := variantId variant;
                   quantity := rowQuantity r;
                   selectedVariant := Some variant |}
      else None
  | None => None
  end.

(** ** The option groups of [ProductForm] *)

(** [ProductOptionGroup] (lines 167-186): nothing for an option with
    exactly one value, otherwise the option with its values. *)
Definition ProductOptionGroup (o : ProductOption) : option ProductOption :=
  if Nat.eqb (length (optionValues o)) 1 then None else Some o.

(** The option groups [ProductForm] renders (lines 110-118 and
    136-142), in order, with [None] where a group renders nothing. *)
Definition optionGroups (productOptions : list ProductOption) : list (option ProductOption) :=
  let sizeOption := List.find isSizeOption productOptions in
  let all := List.map ProductOptionGroup productOptions in
  match sizeOption with
  | Some sizeOption =>
      if Nat.ltb 1 (length (optionValues sizeOption)) then
        List.map ProductOptionGroup
          (List.filter (fun o => negb (isSizeOption o)) productOptions)
      else all
  | None => all
  end.

(** ** The cart lines and rows of the earlier revision *)

Module EarlierForm.
Section Closure.

Variable effectiveSizeOption : option ProductOption.
Variable sizeQuantities : gmap string Z.

(** The first [filter] callback of the earlier [cartLines]. *)
Definition wanted (value : OptionValue) : bool :=
  let quantity := JS.get sizeQuantities (valueName value) in
  JS.truthyProperty quantity && JS.gtZero quantity && exists_ value && available value.

(** The [map] callback of the earlier [cartLines]. *)
Definition toLine (value : OptionValue) : CartLine :=
  let variant := EarlierRevision.variantFor effectiveSizeOption value in
  {| merchandiseId := variant ≫= variantId;
     quantity := JS.get sizeQuantities (valueName value);
     selectedVariant := variant |}.

(** The earlier [cartLines]. *)
Definition cartLines (sizeOption : ProductOption) : list CartLine :=
  List.filter (fun line => JS.truthy (merchandiseId line))
    (List.map toLine (List.filter wanted (optionValues sizeOption))).

(** The row of the earlier [SizeSelectorWithQuantities]. *)
Definition row (value : OptionValue) : SizeRow :=
  let colorSizeValue :=
    effectiveSizeOption ≫= fun o => findValue (valueName value) (optionValues o) in
  let variant := EarlierRevision.variantFor effectiveSizeOption value in
  let quantity := JS.orZero (JS.get sizeQuantities (valueName value)) in
  let price := SizeSelectorWithQuantities.priceOf variant in
  let variantAvailable :=
    match variant with
    | Some v => availableForSale v
    | None => false
    end in
  let available :=
    match colorSizeValue with
    | Some colorSizeValue =>
        available colorSizeValue && exists_ colorSizeValue && variantAvailable
    | None => available value && exists_ value && variantAvailable
    end in
  let stockQuantity := if available then 999%Z else 0%Z in
  {| rowVariant := variant;
     rowQuantity := quantity;
     rowPrice := price;
     rowAvailable := available;
     rowStock := stockQuantity |}.

End Closure.
End EarlierForm.

(** ** The product page ([routes/($locale).products.$handle.jsx])

    The [Product] component holds the selected colour, the selected
    colour product and a cache of images by colour code; it collects
    the images of the carousel, and [ProductColorSwatches] offers one
    colour for each colour code among the related products. *)

(** An image of the storefront API. *)
Record Image := {
  imageId : JS.Str;
  imageUrl : JS.Str;
  imageAltText : JS.Str;
}.

(** A variant together with its [image]. *)
Record PageVariant := {
  pageVariant : ProductVariant;
  pageVariantImage : option Image;
}.

(** A product as the page holds it: [pageMedia] is [media?.nodes] with
    [mediaNode?.image] for each node, and [pageFeaturedImage] is
    [selectedOrFirstAvailableVariant?.image]. *)
Record PageProduct := {
  pageId : string;
  pageHandle : string;
  pageTitle : string;
  pageTags : option (list string);
  pageMedia : option (list (option Image));
  pageAdjacentVariants : option (list PageVariant);
  pageFeaturedImage : option Image;
}.

(** The same product as [ProductForm] reads it. *)
Definition asFragment (p : PageProduct) : ProductFragment :=
  {| handle := pageHandle p;
     title := pageTitle p;
     adjacentVariants := List.map pageVariant <$> pageAdjacentVariants p |}.

(** [tags?.find((tag) => tag.startsWith(prefix))]. *)
Definition findTag (prefix : string) (tags : option (list string)) : option string :=
  tags ≫= List.find (JSText.startsWith prefix).

(** [tag.replace(prefix, '').trim()]. *)
Definition tagValue (prefix tag : string) : string :=
  JS.trim (JSText.removeFirst prefix tag).

(** The colour code of a product, as [initialColorCode] (lines
    168-173) and [ProductColorSwatches] compute it. *)
Definition colorCodeOf (p : PageProduct) : option string :=
  tagValue "colorCode:" <$> findTag "colorCode:" (pageTags p).

(** One entry of the colour map of [ProductColorSwatches]. *)
Record Color := {
  colorCode : string;
  colorFormattedCode : string;
  colorName : string;
  colorOwner : PageProduct;
  colorImage : option Image;
}.

(** The entry built for a product (lines 450-472 and 480-505), when
    the product has a colour code tag. *)
Definition colorEntry (p : PageProduct) : option Color :=
  match findTag "colorCode:" (pageTags p) with
  | Some colorCodeTag =>
      let code := tagValue "colorCode:" colorCodeTag in
      let colorNameTag := findTag "colorName:" (pageTags p) in
      let name :=
        match colorNameTag with
        | Some tag => tagValue "colorName:" tag
        | None => code
        end in
      let formattedColorCode :=
        if JSText.startsWith "#" code then code else "#" ++ code in
      Some {| colorCode := code;
              colorFormattedCode := formattedColorCode;
              colorName := name;
              colorOwner := p;
              colorImage := pageFeaturedImage p |}
  | None => None
  end.

(** [colorMap.has(code)], the map being kept as the list of its values
    in insertion order. *)
Definition hasColor (code : string) (colors : list Color) : bool :=
  List.existsb (fun c => String.eqb (colorCode c) code) colors.

(** The body of [allProducts.forEach] (lines 479-511). *)
Definition addColor (colors : list Color) (p : PageProduct) : list Color :=
  match colorEntry p with
  | Some entry =>
      if hasColor (colorCode entry) colors then colors else colors ++ [entry]
  | None => colors
  end.

(** [colors] of [ProductColorSwatches] (lines 442-513): the current
    product first, then the related products in order, one entry for
    each colour code. *)
Definition swatchColors (currentProduct : PageProduct)
    (allProducts : list PageProduct) : list Color :=
  let first :=
    match colorEntry currentProduct with
    | Some entry => [entry]
    | None => []
    end in
  List.fold_left addColor allProducts first.

(** [colorImageMap] (lines 447-508): the image of each colour that has
    one, by colour code. *)
Definition colorImageMap (colors : list Color) : list (string * Image) :=
  omap (fun c => (fun image => (colorCode c, image)) <$> colorImage c) colors.

(** The state of [Product]. *)
Record PageState := {
  stateColor : option string;
  stateColorProduct : option PageProduct;
  stateImageCache : gmap string Image;
}.

(** The initial state (lines 168-178). *)
Definition initialState (product : PageProduct) : PageState :=
  {| stateColor := colorCodeOf product;
     stateColorProduct := Some product;
     stateImageCache := ∅ |}.

(** [onColorSelect] (lines 247-256). *)
Definition onColorSelect (color : option string) (product : option PageProduct)
    (image : option Image) (st : PageState) : PageState :=
  {| stateColor := color;
     stateColorProduct := product;
     stateImageCache :=
       match color, image with
       | Some (String c rest), Some image =>
           <[String c rest := image]> (stateImageCache st)
       | _, _ => stateImageCache st
       end |}.

(** [onColorsExtracted] (lines 257-262). *)
Definition onColorsExtracted (colorImages : list (string * Image))
    (st : PageState) : PageState :=
  {| stateColor := stateColor st;
     stateColorProduct := stateColorProduct st;
     stateImageCache :=
       List.fold_left (fun cache entry => <[fst entry := snd entry]> cache)
         colorImages (stateImageCache st) |}.

(** A click on a colour, in the dropdown (lines 586-590) or on a swatch
    (line 719). *)
Definition selectColor (color : Color) (st : PageState) : PageState :=
  onColorSelect (Some (colorCode color)) (Some (colorOwner color)) (colorImage color) st.

(** [allImages.find((img) => img.id === image.id)], as a test. *)
Definition hasImage (image : Image) (images : list Image) : bool :=
  List.existsb (fun img => JS.strictEq (imageId img) (imageId image)) images.

(** The body of [adjacentVariants.forEach] (lines 218-222). *)
Definition addVariantImage (images : list Image) (variant : PageVariant) : list Image :=
  match pageVariantImage variant with
  | Some image => if hasImage image images then images else images ++ [image]
  | None => images
  end.

(** The images pushed from the media nodes (lines 208-214). *)
Definition mediaImages (p : PageProduct) : list Image :=
  match pageMedia p with
  | Some nodes => omap (fun image => image) nodes
  | None => []
  end.

(** The images after the adjacent variants were visited (lines
    216-223). *)
Definition productImages (p : PageProduct) : list Image :=
  match pageAdjacentVariants p with
  | Some variants => List.fold_left addVariantImage variants (mediaImages p)
  | None => mediaImages p
  end.

(** [allImages] (lines 200-232), given the image of the selected
    variant of the page. *)
Definition allImages (product : PageProduct) (selectedVariantImage : option Image)
    (st : PageState) : list Image :=
  let productToUse := default product (stateColorProduct st) in
  let images := productImages productToUse in
  match images with
  | [] =>
      let cachedImage :=
        match stateColor st with
        | Some (String c rest) => stateImageCache st !! String c rest
        | _ => None
        end in
      let displayImage :=
        match cachedImage with
        | Some image => Some image
        | None =>
            match stateColorProduct st ≫= pageFeaturedImage with
            | Some image => Some image
            | None => selectedVariantImage
            end
        end in
      match displayImage with
      | Some image => [image]
      | None => []
      end
  | _ => images
  end.

(** [selectedColorObj], [displayName] and [filteredColors] of
    [ColorDropdown] (lines 561-567). *)
Definition selectedColorObj (colors : list Color) (selectedColor : option string)
    : option Color :=
  List.find (fun c => JS.strictEq (Some (colorCode c)) selectedColor) colors.

Definition displayName (colors : list Color) (selectedColor : option string) : string :=
  match selectedColorObj colors selectedColor with
  | Some c =>
      match colorName c with
      | EmptyString => "Select a color"
      | name => name
      end
  | None => "Select a color"
  end.

Definition filteredColors (colors : list Color) (searchTerm : string) : list Color :=
  List.filter
    (fun color =>
       JSText.includes (JS.toLowerCase searchTerm) (JS.toLowerCase (colorName color)))
    colors.

(** The search term of the related-products query of
    [loadDeferredData] (lines 98-124), for the product the first query
    returned; [None] where the loader returns the empty result without
    a second query. *)
Definition relatedSearchTerm (currentProduct : option PageProduct) : option string :=
  match currentProduct with
  | Some product =>
      match pageId product with
      | EmptyString => None
      | _ =>
          match findTag "ProductID:" (pageTags product) with
          | Some productIdTag =>
              match tagValue "ProductID:" productIdTag with
              | EmptyString => None
              | productId => Some ("tag:ProductID:" ++ productId)
              end
          | None => None
          end
      end
  | None => None
  end.

(** What happens on the page: a colour is chosen, or
    [ProductColorSwatches] reports the images of its colours. *)
Inductive PageEvent :=
| ColorSelected (color : Color)
| ColorsExtracted (colorImages : list (string * Image)).

Definition pageStep (st : PageState) (event : PageEvent) : PageState :=
  match event with
  | ColorSelected color => selectColor color st
  | ColorsExtracted colorImages => onColorsExtracted colorImages st
  end.

(** The page of the blue shirt with the red shirt among its related
    products. *)
Module PageCatalogue.

Definition picture (id : string) : Image :=
  {| imageId := Some id;
     imageUrl := Some ("https://cdn.example.com/" ++ id ++ ".jpg");
     imageAltText := None |}.

Definition withImage (v : ProductVariant) (id : string) : PageVariant :=
  {| pageVariant := v; pageVariantImage := Some (picture id) |}.

Definition blue : PageProduct :=
  {| pageId := "gid://shopify/Product/2";
     pageHandle := "shirt-blue";
     pageTitle := "Shirt Blue";
     pageTags := Some [ "ProductID:1001"; "colorCode: 1F3A93 "; "colorName:Royal Blue" ];
     pageMedia := Some [ Some (picture "blue-front"); None; Some (picture "blue-back") ];
     pageAdjacentVariants :=
       Some [ withImage Catalogue.blueS "blue-front"; withImage Catalogue.blueM "blue-side";
              withImage Catalogue.blueL "blue-side" ];
     pageFeaturedImage := Some (picture "blue-front") |}.

Definition red : PageProduct :=
  {| pageId := "gid://shopify/Product/1";
     pageHandle := "shirt-red";
     pageTitle := "Shirt Red";
     pageTags := Some [ "colorCode:#C0392B"; "ProductID:1001" ];
     pageMedia := None;
     pageAdjacentVariants := Some [];
     pageFeaturedImage := Some (picture "red-front") |}.

Definition untagged : PageProduct :=
  {| pageId := "gid://shopify/Product/3";
     pageHandle := "shirt-plain";
     pageTitle := "Shirt Plain";
     pageTags := Some [ "ProductID:1001" ];
     pageMedia := None;
     pageAdjacentVariants := None;
     pageFeaturedImage := None |}.

End PageCatalogue.

(** ** The image carousel ([ProductImage]) *)

Module ProductImage.

(** [imageArray]: [images || (image ? [image] : [])]. *)
Definition imageArray (images : option (list Image)) (image : option Image) : list Image :=
  match images with
  | Some images => images
  | None =>
      match image with
      | Some image => [image]
      | None => []
      end
  end.

(** The updates of [goToPrevious] and [goToNext], for an array of
    [length] images. *)
Definition goToPrevious (length prev : Z) : Z :=
  if Z.eqb prev 0 then (length - 1)%Z else (prev - 1)%Z.

Definition goToNext (length prev : Z) : Z :=
  if Z.eqb prev (length - 1) then 0%Z else (prev + 1)%Z.

Inductive Click :=
| Previous
| Next.

Definition click (length : Z) (index : Z) (c : Click) : Z :=
  match c with
  | Previous => goToPrevious length index
  | Next => goToNext length index
  end.

(** The index after a series of clicks, from the initial index 0. *)
Definition indexAfter (length : Z) (clicks : list Click) : Z :=
  List.fold_left (click length) clicks 0%Z.

(** [currentImage]: [imageArray[currentImageIndex]]. *)
Definition currentImage (images : list Image) (index : Z) : option Image :=
  if Z.ltb index 0 then None else List.nth_error images (Z.to_nat index).

End ProductImage.

(** * Properties *)

(** ** Strings and scans *)

Lemma strictEq_Some (a : JS.Str) (s : string) :
  JS.strictEq a (Some s) = true <-> a = Some s.
Proof.
  destruct a as [x|]; simpl.
  - rewrite String.eqb_eq. split; congruence.
  - split; discriminate.
Qed.

Lemma findValue_self (values : list OptionValue) (value : OptionValue) :
  List.NoDup (List.map valueName values) -> In value values ->
  findValue (valueName value) values = Some value.
Proof.
  unfold findValue. induction values as [|v values IH]; intros Hnd Hin; [destruct Hin|].
  cbn [List.map] in Hnd. apply List.NoDup_cons_iff in Hnd as [Hfresh Hnd].
  cbn [List.find]. destruct (String.eqb_spec (valueName v) (valueName value)) as [He|Hne].
  - destruct Hin as [->|Hin]; [reflexivity|].
    exfalso. apply Hfresh. rewrite He. apply List.in_map, Hin.
  - destruct Hin as [->|Hin]; [contradiction|].
    apply IH; assumption.
Qed.

(** ** Reading the quantity object *)

Lemma get_own (sizeQuantities : gmap string Z) (key : string) (n : Z) :
  sizeQuantities !! key = Some n -> JS.get sizeQuantities key = JS.Int n.
Proof. unfold JS.get. intros ->. reflexivity. Qed.

Lemma get_Int (sizeQuantities : gmap string Z) (key : string) (n : Z) :
  JS.get sizeQuantities key = JS.Int n <-> sizeQuantities !! key = Some n.
Proof.
  split; [|apply get_own]. unfold JS.get.
  destruct (sizeQuantities !! key); [congruence|].
  destruct (JS.inheritedName key); discriminate.
Qed.

Lemma get_inherited (sizeQuantities : gmap string Z) (key : string) :
  sizeQuantities !! key = None -> JS.inheritedName key = true ->
  JS.get sizeQuantities key = JS.Inherited key.
Proof. unfold JS.get. intros -> ->. reflexivity. Qed.

Lemma get_absent (sizeQuantities : gmap string Z) (key : string) :
  sizeQuantities !! key = None -> JS.inheritedName key = false ->
  JS.get sizeQuantities key = JS.Absent.
Proof. unfold JS.get. intros -> ->. reflexivity. Qed.

(** The guard [!quantity || quantity <= 0] of the cart lines. *)
Lemma guard_spec (sizeQuantities : gmap string Z) (key : string) :
  negb (JS.truthyProperty (JS.get sizeQuantities key))
    || JS.leZero (JS.get sizeQuantities key) = false <->
  (exists n, sizeQuantities !! key = Some n /\ (0 < n)%Z) \/
  (sizeQuantities !! key = None /\ JS.inheritedName key = true).
Proof.
  unfold JS.get. destruct (sizeQuantities !! key) as [n|].
  - cbn [JS.truthyProperty JS.leZero].
    destruct (Z.eqb_spec n 0), (Z.leb_spec n 0); cbn [negb orb]; split;
      try discriminate; try reflexivity; try lia.
    + intros [(m & [= <-] & Hm)|[Hnone _]]; [lia | discriminate Hnone].
    + intros [(m & [= <-] & Hm)|[Hnone _]]; [lia | discriminate Hnone].
    + intros _. left. exists n. split; [reflexivity | lia].
  - destruct (JS.inheritedName key); cbn; split; try discriminate; auto.
    intros [(m & Hsome & _)|[_ Hinh]]; [discriminate Hsome | discriminate Hinh].
Qed.

(** The test [quantity && quantity > 0] of the earlier revision. *)
Lemma positive_spec (sizeQuantities : gmap string Z) (key : string) :
  JS.truthyProperty (JS.get sizeQuantities key)
    && JS.gtZero (JS.get sizeQuantities key) = true <->
  exists n, sizeQuantities !! key = Some n /\ (0 < n)%Z.
Proof.
  unfold JS.get. destruct (sizeQuantities !! key) as [n|].
  - cbn [JS.truthyProperty JS.gtZero].
    destruct (Z.eqb_spec n 0), (Z.ltb_spec 0 n); cbn [negb andb]; split;
      try discriminate; try lia.
    + intros (m & [= <-] & Hm). lia.
    + intros _. exists n. split; [reflexivity | lia].
    + intros (m & [= <-] & Hm). lia.
  - destruct (JS.inheritedName key); cbn; split; try discriminate;
      intros (m & Hsome & _); discriminate Hsome.
Qed.

(** ** The cart-line pipeline, line by line *)

Section CartLines.

Variable selectedColorProduct : option ProductFragment.
Variable effectiveSizeOption : option ProductOption.
Variable sizeQuantities : gmap string Z.

(** What passing the first filter means: the guard on the quantity
    lets through an own positive integer and, for a name the object
    does not own, a member of [Object.prototype]. *)
Lemma wanted_spec (value : OptionValue) :
  ProductForm.wanted selectedColorProduct effectiveSizeOption sizeQuantities value = true <->
  exists variant,
    ((exists n, sizeQuantities !! valueName value = Some n /\ (0 < n)%Z) \/
     (sizeQuantities !! valueName value = None /\
      JS.inheritedName (valueName value) = true)) /\
    ProductForm.variantFor selectedColorProduct effectiveSizeOption value = Some variant /\
    JS.truthy (variantId variant) = true /\ availableForSale variant = true.
Proof.
  unfold ProductForm.wanted. cbv zeta.
  destruct (negb _ || _) eqn:Hguard.
  - split; [discriminate|]. intros (variant & Hq & _).
    apply guard_spec in Hq. congruence.
  - apply guard_spec in Hguard.
    destruct (ProductForm.variantFor _ _ value) as [variant|].
    + rewrite andb_true_iff. split.
      * intros [? ?]. exists variant. auto.
      * intros (? & _ & [= <-] & ? & ?). auto.
    + split; [discriminate | intros (? & _ & Hv & _); discriminate Hv].
Qed.

(** A line that passed the first filter already has a truthy
    identifier, so the last filter removes nothing. *)
Lemma toLine_wanted_truthy (value : OptionValue) :
  ProductForm.wanted selectedColorProduct effectiveSizeOption sizeQuantities value = true ->
  JS.truthy (merchandiseId
    (ProductForm.toLine selectedColorProduct effectiveSizeOption sizeQuantities value)) = true.
Proof.
  intros (variant & _ & Hv & Hid & _)%wanted_spec.
  unfold ProductForm.toLine. rewrite Hv. exact Hid.
Qed.

Lemma cartLines_unfold (sizeOption : ProductOption) :
  ProductForm.cartLines selectedColorProduct effectiveSizeOption sizeQuantities sizeOption =
  List.map (ProductForm.toLine selectedColorProduct effectiveSizeOption sizeQuantities)
    (List.filter (ProductForm.wanted selectedColorProduct effectiveSizeOption sizeQuantities)
       (optionValues sizeOption)).
Proof.
  unfold ProductForm.cartLines.
  induction (optionValues sizeOption) as [|value values IH]; [reflexivity|].
  cbn [List.filter List.map].
  destruct (ProductForm.wanted _ _ _ value) eqn:Hw; [|exact IH].
  cbn [List.filter List.map]. rewrite (toLine_wanted_truthy _ Hw).
  f_equal. exact IH.
Qed.

(** Every line comes from a size value that passed the first filter. *)
Lemma cartLines_origin (sizeOption : ProductOption) (line : CartLine) :
  In line (ProductForm.cartLines selectedColorProduct effectiveSizeOption
             sizeQuantities sizeOption) ->
  exists value,
    In value (optionValues sizeOption) /\
    ProductForm.wanted selectedColorProduct effectiveSizeOption sizeQuantities value = true /\
    line = ProductForm.toLine selectedColorProduct effectiveSizeOption sizeQuantities value.
Proof.
  rewrite cartLines_unfold. intros (value & <- & Hin)%List.in_map_iff.
  apply List.filter_In in Hin as [Hin Hw]. eauto.
Qed.

End CartLines.

Lemma filter_sublist_of {A : Type} (f : A -> bool) (l : list A) :
  sublist (List.filter f l) l.
Proof.
  induction l as [|x l IH]; simpl.
  - constructor.
  - destruct (f x); [apply sublist_skip | apply sublist_cons]; exact IH.
Qed.

(** ** Invariants of the emitted lines *)

(** C2, at an input where the code breaks it, with what holds for
    every input.  Every line has a merchandise identifier that is
    present and not the empty string, and its quantity is a strictly
    positive integer the object owns under the size's name, unless the
    object owns nothing under that name and the name is one of
    [Object.prototype]: then the quantity is that inherited member.
    With the sizes constructor and M and nothing entered, a line is
    built for the size constructor whose quantity is the inherited
    member, not a positive number. *)
Theorem cartLines_quantity_guard :
  (forall selectedColorProduct effectiveSizeOption
          (sizeQuantities : gmap string Z) sizeOption,
      Forall (fun line =>
                merchandiseId line <> None /\
                JS.truthy (merchandiseId line) = true /\
                ((exists n, quantity line = JS.Int n /\ (0 < n)%Z) \/
                 (exists name,
                     quantity line = JS.Inherited name /\
                     sizeQuantities !! name = None /\
                     JS.inheritedName name = true)))
        (ProductForm.cartLines selectedColorProduct effectiveSizeOption
           sizeQuantities sizeOption)) /\
  ProductForm.cartLines None (Some Catalogue.oddSizes) ∅ Catalogue.oddSizes =
    [ {| merchandiseId := variantId Catalogue.blueS;
         quantity := JS.Inherited "constructor";
         selectedVariant := Some Catalogue.blueS |} ] /\
  (forall n, JS.Inherited "constructor" <> JS.Int n).
Proof.
  split; [|split; [reflexivity | discriminate]].
  intros cp eso sq so. apply List.Forall_forall. intros line Hin.
  apply cartLines_origin in Hin as (value & _ & Hw & ->).
  pose proof (toLine_wanted_truthy _ _ _ _ Hw) as Hid.
  apply wanted_spec in Hw as (variant & Hq & _).
  split; [|split; [exact Hid|]].
  - intros Hnone. rewrite Hnone in Hid. discriminate.
  - cbn [quantity ProductForm.toLine]. destruct Hq as [(n & Hn & Hpos)|[Hnone Hinh]].
    + left. exists n. split; [apply get_own, Hn | exact Hpos].
    + right. exists (valueName value). split; [apply get_inherited|]; auto.
Qed.

(** C10: every line carries what the quantity object gives under its
    size name, unaltered, together with the variant resolved for that
    size; nothing clamps it to the stock.  On the red shirt a request
    of 1000 for size L yields a line of quantity 1000 although the
    variant's inventory count, which the display reports as stock, is
    3; on the blue shirt without a selected colour the same request
    yields a line of quantity 1000 against the displayed sentinel 999. *)
Theorem cartLines_quantity_unclamped :
  (forall selectedColorProduct effectiveSizeOption
          (sizeQuantities : gmap string Z) sizeOption,
      Forall (fun line =>
                exists value,
                  In value (optionValues sizeOption) /\
                  quantity line = JS.get sizeQuantities (valueName value) /\
                  selectedVariant line =
                    ProductForm.variantFor selectedColorProduct effectiveSizeOption value)
        (ProductForm.cartLines selectedColorProduct effectiveSizeOption
           sizeQuantities sizeOption)) /\
  (let q : gmap string Z := {[ "L" := 1000%Z ]} in
   ProductForm.cartLines (Some Catalogue.shirtRed) (Some Catalogue.redSizes) q
     Catalogue.blueSizes =
     [ {| merchandiseId := variantId Catalogue.redL;
          quantity := JS.Int 1000;
          selectedVariant := Some Catalogue.redL |} ] /\
   quantityAvailable Catalogue.redL = Some 3%Z /\
   rowStock (SizeSelectorWithQuantities.row (Some Catalogue.shirtRed)
               (Some Catalogue.redSizes) q (Catalogue.value "L" (Some Catalogue.blueL)))
     = 3%Z /\
   ProductForm.cartLines None (Some Catalogue.blueSizes) q Catalogue.blueSizes =
     [ {| merchandiseId := variantId Catalogue.blueL;
          quantity := JS.Int 1000;
          selectedVariant := Some Catalogue.blueL |} ] /\
   rowStock (SizeSelectorWithQuantities.row None (Some Catalogue.blueSizes) q
               (Catalogue.value "L" (Some Catalogue.blueL)))
     = 999%Z).
Proof.
  split.
  - intros cp eso q so. apply List.Forall_forall. intros line Hin.
    apply cartLines_origin in Hin as (value & Hin & _ & ->).
    exists value. simpl. auto.
  - vm_compute. repeat split; reflexivity.
Qed.

(** ** Order and omission *)

(** The values that survive the first filter of [cartLines]. *)
Lemma cartLines_kept selectedColorProduct effectiveSizeOption
    (sizeQuantities : gmap string Z) sizeOption :
  exists kept,
    sublist kept (optionValues sizeOption) /\
    ProductForm.cartLines selectedColorProduct effectiveSizeOption
      sizeQuantities sizeOption =
      List.map (ProductForm.toLine selectedColorProduct effectiveSizeOption sizeQuantities)
        kept /\
    (forall value,
        sizeQuantities !! valueName value = Some 0%Z \/
        (sizeQuantities !! valueName value = None /\
         JS.inheritedName (valueName value) = false) ->
        ~ In value kept).
Proof.
  eexists. split; [apply filter_sublist_of|]. split; [apply cartLines_unfold|].
  intros value Hq Hin. apply List.filter_In in Hin as [_ Hw].
  apply wanted_spec in Hw as (_ & Hguard & _).
  destruct Hq as [Hq|[Hq Hinh]], Hguard as [(n & Hn & Hpos)|[Hnone Hyes]];
    try congruence.
  rewrite Hq in Hn. injection Hn as <-. lia.
Qed.

(** C8, with the one case where the code breaks it.  The lines are the
    images, in the order of the size option list, of a sublist of its
    values; no value whose quantity is 0 is among them, and no value
    whose quantity is unset unless its name is one of
    [Object.prototype].  With the values S, M, L in that order, the
    quantities S: 2, M: 0, L: 1, and S and L resolving to available
    variants, the result is the line for S followed by the line for L.
    With the sizes constructor and M and only M: 2 entered, the unset
    size constructor is not omitted: its line precedes the line for M. *)
Theorem cartLines_stable_order :
  (forall selectedColorProduct effectiveSizeOption
          (sizeQuantities : gmap string Z) sizeOption,
      exists kept,
        sublist kept (optionValues sizeOption) /\
        ProductForm.cartLines selectedColorProduct effectiveSizeOption
          sizeQuantities sizeOption =
          List.map (ProductForm.toLine selectedColorProduct effectiveSizeOption
                      sizeQuantities) kept /\
        (forall value,
            sizeQuantities !! valueName value = Some 0%Z \/
            (sizeQuantities !! valueName value = None /\
             JS.inheritedName (valueName value) = false) ->
            ~ In value kept)) /\
  (forall selectedColorProduct effectiveSizeOption
          (sizeQuantities : gmap string Z) optionName s m l variantS variantL,
      valueName s = "S" -> valueName m = "M" -> valueName l = "L" ->
      sizeQuantities !! "S" = Some 2%Z ->
      sizeQuantities !! "M" = Some 0%Z ->
      sizeQuantities !! "L" = Some 1%Z ->
      ProductForm.variantFor selectedColorProduct effectiveSizeOption s = Some variantS ->
      ProductForm.variantFor selectedColorProduct effectiveSizeOption l = Some variantL ->
      JS.truthy (variantId variantS) = true -> availableForSale variantS = true ->
      JS.truthy (variantId variantL) = true -> availableForSale variantL = true ->
      ProductForm.cartLines selectedColorProduct effectiveSizeOption sizeQuantities
        {| optionName := optionName; optionValues := [s; m; l] |} =
        [ {| merchandiseId := variantId variantS; quantity := JS.Int 2;
             selectedVariant := Some variantS |};
          {| merchandiseId := variantId variantL; quantity := JS.Int 1;
             selectedVariant := Some variantL |} ]) /\
  (({[ "M" := 2%Z ]} : gmap string Z) !! "constructor" = None /\
   ProductForm.cartLines None (Some Catalogue.oddSizes) {[ "M" := 2%Z ]}
     Catalogue.oddSizes =
     [ {| merchandiseId := variantId Catalogue.blueS;
          quantity := JS.Inherited "constructor";
          selectedVariant := Some Catalogue.blueS |};
       {| merchandiseId := variantId Catalogue.blueM;
          quantity := JS.Int 2;
          selectedVariant := Some Catalogue.blueM |} ]).
Proof.
  split; [intros; apply cartLines_kept|]. split; [|split; reflexivity].
  intros cp eso q name s m l vS vL Hs Hm Hl HqS HqM HqL HvS HvL HidS HaS HidL HaL.
  rewrite cartLines_unfold. cbn [optionValues List.filter].
  assert (ProductForm.wanted cp eso q s = true) as ->.
  { apply wanted_spec. exists vS. rewrite Hs. repeat split; auto.
    left. exists 2%Z. split; [exact HqS | lia]. }
  assert (ProductForm.wanted cp eso q m = false) as ->.
  { unfold ProductForm.wanted. rewrite Hm, (get_own _ _ _ HqM). reflexivity. }
  assert (ProductForm.wanted cp eso q l = true) as ->.
  { apply wanted_spec. exists vL. rewrite Hl. repeat split; auto.
    left. exists 1%Z. split; [exact HqL | lia]. }
  unfold ProductForm.toLine. cbn [List.map].
  rewrite HvS, HvL, Hs, Hl, (get_own _ _ _ HqS), (get_own _ _ _ HqL). reflexivity.
Qed.

Lemma cartLines_stable_order_witness :
  ProductForm.cartLines (Some Catalogue.shirtRed) (Some Catalogue.redSizes)
    (<["S" := 2%Z]> (<["M" := 0%Z]> {[ "L" := 1%Z ]}))
    {| optionName := "Size";
       optionValues := [ Catalogue.value "S" (Some Catalogue.blueS);
                         Catalogue.value "M" (Some Catalogue.blueM);
                         Catalogue.value "L" (Some Catalogue.blueL) ] |} =
    [ {| merchandiseId := variantId Catalogue.redS; quantity := JS.Int 2;
         selectedVariant := Some Catalogue.redS |};
      {| merchandiseId := variantId Catalogue.redL; quantity := JS.Int 1;
         selectedVariant := Some Catalogue.redL |} ].
Proof.
  apply (proj1 (proj2 cartLines_stable_order)); reflexivity.
Defined.

(** ** Availability and stock of a displayed size *)

(** C3: with a colour product selected and a variant resolved, the
    computed availability is false when the variant's product handle
    is not the colour product's handle, whatever its availableForSale
    flag, and it is the availableForSale flag when the handles are the
    same. *)
Theorem availableOf_handle_gate
    (colorProduct : ProductFragment) (variant : ProductVariant) (value : OptionValue) :
  (productHandle variant <> Some (handle colorProduct) ->
   SizeSelectorWithQuantities.availableOf (Some colorProduct) (Some variant) value = false) /\
  (productHandle variant = Some (handle colorProduct) ->
   SizeSelectorWithQuantities.availableOf (Some colorProduct) (Some variant) value
     = availableForSale variant).
Proof.
  unfold SizeSelectorWithQuantities.availableOf.
  destruct (JS.strictEq (productHandle variant) (Some (handle colorProduct))) eqn:He.
  - apply strictEq_Some in He. split; [contradiction|].
    intros _. destruct (availableForSale variant); reflexivity.
  - split; [reflexivity|]. intros Heq%strictEq_Some. congruence.
Qed.

Lemma availableOf_handle_gate_witness :
  availableForSale Catalogue.blueL = true /\
  SizeSelectorWithQuantities.availableOf (Some Catalogue.shirtRed) (Some Catalogue.blueL)
    (Catalogue.value "L" (Some Catalogue.blueL)) = false /\
  SizeSelectorWithQuantities.availableOf (Some Catalogue.shirtRed) (Some Catalogue.redL)
    (Catalogue.value "L" (Some Catalogue.blueL)) = availableForSale Catalogue.redL.
Proof.
  split; [reflexivity|]. split.
  - apply (proj1 (availableOf_handle_gate Catalogue.shirtRed Catalogue.blueL
                    (Catalogue.value "L" (Some Catalogue.blueL)))).
    discriminate.
  - apply (proj2 (availableOf_handle_gate Catalogue.shirtRed Catalogue.redL
                    (Catalogue.value "L" (Some Catalogue.blueL)))).
    reflexivity.
Defined.

(** C5, as the component computes it: the stock of a row is the
    resolved variant's inventory count when the variant has one;
    otherwise, also when no variant was resolved, it is 999 when the
    row is available and 0 when it is not.  With a colour product
    selected and no variant resolved it is 0. *)
Theorem row_stock
    (selectedColorProduct : option ProductFragment)
    (effectiveSizeOption : option ProductOption)
    (sizeQuantities : gmap string Z) (value : OptionValue) :
  let r := SizeSelectorWithQuantities.row selectedColorProduct effectiveSizeOption
             sizeQuantities value in
  (forall variant n,
      rowVariant r = Some variant -> quantityAvailable variant = Some n ->
      rowStock r = n) /\
  (rowVariant r ≫= quantityAvailable = None ->
   rowStock r = if rowAvailable r then 999%Z else 0%Z) /\
  (rowVariant r = None -> selectedColorProduct <> None ->
   rowAvailable r = false /\ rowStock r = 0%Z).
Proof.
  cbn zeta. unfold SizeSelectorWithQuantities.row. cbn [rowVariant rowStock rowAvailable].
  unfold SizeSelectorWithQuantities.stockQuantityOf.
  split; [|split].
  - intros variant n -> Hn. simpl. rewrite Hn. reflexivity.
  - intros ->. reflexivity.
  - intros -> Hcp. simpl.
    destruct selectedColorProduct; [auto | contradiction].
Qed.

Lemma row_stock_witness :
  rowStock (SizeSelectorWithQuantities.row (Some Catalogue.shirtRed)
              (Some Catalogue.redSizes) ∅ (Catalogue.value "L" (Some Catalogue.blueL)))
    = 3%Z /\
  rowStock (SizeSelectorWithQuantities.row None (Some Catalogue.blueSizes) ∅
              (Catalogue.value "L" (Some Catalogue.blueL)))
    = 999%Z /\
  rowStock (SizeSelectorWithQuantities.row (Some Catalogue.shirtRed)
              (Some Catalogue.redSizes) ∅ (Catalogue.value "4XL" (Some Catalogue.blue4XL)))
    = 0%Z.
Proof.
  split; [|split].
  - apply (proj1 (row_stock (Some Catalogue.shirtRed) (Some Catalogue.redSizes) ∅
                    (Catalogue.value "L" (Some Catalogue.blueL))) Catalogue.redL);
      reflexivity.
  - apply (proj1 (proj2 (row_stock None (Some Catalogue.blueSizes) ∅
                           (Catalogue.value "L" (Some Catalogue.blueL))))).
    reflexivity.
  - apply (proj2 (proj2 (row_stock (Some Catalogue.shirtRed) (Some Catalogue.redSizes) ∅
                           (Catalogue.value "4XL" (Some Catalogue.blue4XL)))));
      [reflexivity | discriminate].
Defined.

(** C5 as stated fails: with no colour product selected and a size
    value that exists and is available but has no first selectable
    variant, no variant is resolved and yet the stock is 999. *)
Lemma row_stock_without_variant_is_sentinel :
  rowVariant (SizeSelectorWithQuantities.row None (Some Catalogue.blueSizesGap) ∅
                (Catalogue.value "M" None)) = None /\
  rowAvailable (SizeSelectorWithQuantities.row None (Some Catalogue.blueSizesGap) ∅
                  (Catalogue.value "M" None)) = true /\
  rowStock (SizeSelectorWithQuantities.row None (Some Catalogue.blueSizesGap) ∅
              (Catalogue.value "M" None)) = 999%Z /\
  rowStock (SizeSelectorWithQuantities.row None (Some Catalogue.blueSizesGap) ∅
              (Catalogue.value "M" None)) <> 0%Z.
Proof.
  repeat split. discriminate.
Qed.

(** ** The standard form *)

(** C9: when the product has no size option, or a size option with a
    single value, [ProductForm] renders the standard form; its lines
    are exactly one line with the selected variant's identifier and
    quantity 1 when there is a selected variant, and when there is none
    the lines are empty and the button is disabled. *)
Theorem productForm_standard
    (getProductOptions : ProductFragment -> list ProductOption)
    (productOptions : list ProductOption)
    (selectedVariant : option ProductVariant)
    (selectedColorProduct : option ProductFragment)
    (sizeQuantities : gmap string Z) :
  (List.find isSizeOption productOptions = None \/
   exists sizeOption,
     List.find isSizeOption productOptions = Some sizeOption /\
     length (optionValues sizeOption) = 1) ->
  exists disabled lines,
    productForm getProductOptions productOptions selectedVariant selectedColorProduct
      sizeQuantities = StandardForm disabled lines /\
    match selectedVariant with
    | Some variant =>
        lines = [ {| merchandiseId := variantId variant;
                     quantity := JS.Int 1;
                     selectedVariant := Some variant |} ] /\
        disabled = negb (availableForSale variant)
    | None => lines = [] /\ disabled = true
    end.
Proof.
  intros Hsize. unfold productForm.
  destruct Hsize as [-> | (sizeOption & -> & ->)]; cbn [Nat.ltb Nat.leb];
    do 2 eexists; (split; [reflexivity|]);
    destruct selectedVariant; auto.
Qed.

Lemma productForm_standard_witness :
  exists disabled lines,
    productForm (fun _ => []) [ {| optionName := "Size";
                                   optionValues := [ Catalogue.value "L" (Some Catalogue.blueL) ] |} ]
      (Some Catalogue.blueL) None ∅ = StandardForm disabled lines /\
    lines = [ {| merchandiseId := variantId Catalogue.blueL;
                 quantity := JS.Int 1;
                 selectedVariant := Some Catalogue.blueL |} ] /\
    disabled = negb (availableForSale Catalogue.blueL).
Proof.
  apply (productForm_standard (fun _ => [])
           [ {| optionName := "Size";
                optionValues := [ Catalogue.value "L" (Some Catalogue.blueL) ] |} ]
           (Some Catalogue.blueL) None ∅).
  right. eexists. split; reflexivity.
Defined.

(** ** Resolution inside the selected colour *)

Section DisplayResolution.

Variable colorProduct : ProductFragment.
Variable effectiveSizeOption : option ProductOption.

(** A variant found by the strict scan is an adjacent variant of the
    colour product, has its handle, and carries the size. *)
Lemma display_findVariantForSize_sound (sizeName : string) (variant : ProductVariant) :
  SizeSelectorWithQuantities.findVariantForSize (Some colorProduct) sizeName = Some variant ->
  In variant (default [] (adjacentVariants colorProduct)) /\
  productHandle variant = Some (handle colorProduct) /\
  sizeValueOf variant = Some (JS.trim sizeName).
Proof.
  unfold SizeSelectorWithQuantities.findVariantForSize, sizeValueOf.
  destruct (adjacentVariants colorProduct) as [variants|]; [|discriminate].
  intros [Hin Hp]%List.find_some. split; [exact Hin|].
  destruct (selectedOptions variant) as [opts|]; [|discriminate].
  destruct (JS.strictEq (productHandle variant) _) eqn:Hh; [|discriminate].
  apply strictEq_Some in Hh. split; [exact Hh|]. simpl in *.
  destruct (List.find isSizeOpt opts) as [o|]; [|discriminate].
  simpl. apply strictEq_Some in Hp. exact Hp.
Qed.

(** The strict scan finds nothing when no adjacent variant of the
    colour product's handle carries the size. *)
Lemma display_findVariantForSize_None (sizeName : string) :
  (forall variant,
      In variant (default [] (adjacentVariants colorProduct)) ->
      productHandle variant = Some (handle colorProduct) ->
      sizeValueOf variant <> Some (JS.trim sizeName)) ->
  SizeSelectorWithQuantities.findVariantForSize (Some colorProduct) sizeName = None.
Proof.
  intros Hno.
  destruct (SizeSelectorWithQuantities.findVariantForSize (Some colorProduct) sizeName)
    as [variant|] eqn:Hf; [|reflexivity].
  apply display_findVariantForSize_sound in Hf as (Hin & Hh & Hs).
  exfalso. exact (Hno variant Hin Hh Hs).
Qed.

(** With a colour product selected, the display resolution is the
    strict scan, or else the candidate when it passes validation. *)
Lemma display_variantFor_cases (value : OptionValue) :
  SizeSelectorWithQuantities.variantFor (Some colorProduct) effectiveSizeOption value =
  match SizeSelectorWithQuantities.findVariantForSize (Some colorProduct) (valueName value) with
  | Some variant => Some variant
  | None =>
      match candidateFor effectiveSizeOption value with
      | Some candidate =>
          if JS.strictEq (productHandle candidate) (Some (handle colorProduct))
             && JS.strictEq (sizeValueOf candidate) (Some (JS.trim (valueName value)))
          then Some candidate else None
      | None => None
      end
  end.
Proof.
  unfold SizeSelectorWithQuantities.variantFor, candidateFor.
  destruct (SizeSelectorWithQuantities.findVariantForSize _ _) as [variant|];
    [reflexivity|].
  destruct effectiveSizeOption as [o|]; [|reflexivity]. simpl.
  destruct (findValue (valueName value) (optionValues o)) as [v|]; [|reflexivity].
  simpl. destruct (firstSelectableVariant v) as [candidate|]; [|reflexivity].
  unfold sizeValueOf.
  destruct (selectedOptions candidate) as [opts|]; simpl;
    [destruct (List.find isSizeOpt opts); simpl|];
    destruct (_ && _); reflexivity.
Qed.

(** Whatever the display resolution returns under a selected colour
    belongs to that colour and carries the requested size. *)
Lemma display_variantFor_sound (value : OptionValue) (variant : ProductVariant) :
  SizeSelectorWithQuantities.variantFor (Some colorProduct) effectiveSizeOption value
    = Some variant ->
  productHandle variant = Some (handle colorProduct) /\
  sizeValueOf variant = Some (JS.trim (valueName value)).
Proof.
  rewrite display_variantFor_cases.
  destruct (SizeSelectorWithQuantities.findVariantForSize _ _) as [found|] eqn:Hf.
  - intros [= <-]. apply display_findVariantForSize_sound in Hf. tauto.
  - destruct (candidateFor effectiveSizeOption value) as [candidate|]; [|discriminate].
    destruct (JS.strictEq (productHandle candidate) _) eqn:Hh; [|discriminate].
    destruct (JS.strictEq (sizeValueOf candidate) _) eqn:Hs; [|discriminate].
    intros [= <-]. apply strictEq_Some in Hh, Hs. auto.
Qed.

(** It returns nothing when neither an adjacent variant of the colour
    nor the candidate is a variant of the colour carrying the size. *)
Lemma display_variantFor_None (value : OptionValue) :
  (forall variant,
      In variant (default [] (adjacentVariants colorProduct)) ->
      productHandle variant = Some (handle colorProduct) ->
      sizeValueOf variant <> Some (JS.trim (valueName value))) ->
  (forall candidate,
      candidateFor effectiveSizeOption value = Some candidate ->
      productHandle candidate = Some (handle colorProduct) ->
      sizeValueOf candidate <> Some (JS.trim (valueName value))) ->
  SizeSelectorWithQuantities.variantFor (Some colorProduct) effectiveSizeOption value = None.
Proof.
  intros Hadj Hcand.
  destruct (SizeSelectorWithQuantities.variantFor _ _ value) as [variant|] eqn:Hv;
    [|reflexivity].
  pose proof (display_variantFor_sound _ _ Hv) as [Hh Hs].
  rewrite display_variantFor_cases in Hv.
  destruct (SizeSelectorWithQuantities.findVariantForSize _ _) as [found|] eqn:Hf.
  - injection Hv as <-. apply display_findVariantForSize_sound in Hf as (Hin & _ & _).
    exfalso. exact (Hadj _ Hin Hh Hs).
  - destruct (candidateFor effectiveSizeOption value) as [candidate|] eqn:Hc;
      [|discriminate].
    destruct (_ && _); [|discriminate]. injection Hv as <-.
    exfalso. exact (Hcand _ eq_refl Hh Hs).
Qed.

End DisplayResolution.

(** C1, as the display path computes it: with a colour product
    selected, any variant resolved for a size has the colour product's
    handle and carries that size, so the base product's variant is
    never substituted; and when neither an adjacent variant of the
    colour product nor the pre-resolved candidate of its size option is
    a variant of that colour carrying the size, nothing is resolved and
    the row is unavailable with stock 0, whatever the base value holds. *)
Theorem display_stays_in_selected_color
    (colorProduct : ProductFragment) (effectiveSizeOption : option ProductOption)
    (sizeQuantities : gmap string Z) (value : OptionValue) :
  (forall variant,
      SizeSelectorWithQuantities.variantFor (Some colorProduct) effectiveSizeOption value
        = Some variant ->
      productHandle variant = Some (handle colorProduct) /\
      sizeValueOf variant = Some (JS.trim (valueName value))) /\
  ((forall variant,
       In variant (default [] (adjacentVariants colorProduct)) ->
       productHandle variant = Some (handle colorProduct) ->
       sizeValueOf variant <> Some (JS.trim (valueName value))) ->
   (forall candidate,
       candidateFor effectiveSizeOption value = Some candidate ->
       productHandle candidate = Some (handle colorProduct) ->
       sizeValueOf candidate <> Some (JS.trim (valueName value))) ->
   rowVariant (SizeSelectorWithQuantities.row (Some colorProduct) effectiveSizeOption
                 sizeQuantities value) = None /\
   rowAvailable (SizeSelectorWithQuantities.row (Some colorProduct) effectiveSizeOption
                   sizeQuantities value) = false /\
   rowStock (SizeSelectorWithQuantities.row (Some colorProduct) effectiveSizeOption
               sizeQuantities value) = 0%Z).
Proof.
  split; [intros variant; apply display_variantFor_sound|].
  intros Hadj Hcand.
  unfold SizeSelectorWithQuantities.row. cbn [rowVariant rowAvailable rowStock].
  rewrite (display_variantFor_None _ _ _ Hadj Hcand). auto.
Qed.

Lemma display_stays_in_selected_color_witness :
  rowVariant (SizeSelectorWithQuantities.row (Some Catalogue.shirtRed)
                (Some Catalogue.redSizes) {[ "4XL" := 1%Z ]}
                (Catalogue.value "4XL" (Some Catalogue.blue4XL))) = None /\
  rowAvailable (SizeSelectorWithQuantities.row (Some Catalogue.shirtRed)
                  (Some Catalogue.redSizes) {[ "4XL" := 1%Z ]}
                  (Catalogue.value "4XL" (Some Catalogue.blue4XL))) = false /\
  rowStock (SizeSelectorWithQuantities.row (Some Catalogue.shirtRed)
              (Some Catalogue.redSizes) {[ "4XL" := 1%Z ]}
              (Catalogue.value "4XL" (Some Catalogue.blue4XL))) = 0%Z.
Proof.
  apply (proj2 (display_stays_in_selected_color Catalogue.shirtRed
                  (Some Catalogue.redSizes) {[ "4XL" := 1%Z ]}
                  (Catalogue.value "4XL" (Some Catalogue.blue4XL)))).
  - intros variant [<-|[<-|[]]] _; discriminate.
  - intros candidate Hc. discriminate Hc.
Defined.

(** C1 as stated fails: the red shirt has no adjacent variant at all,
    hence none carrying size L, yet the display path resolves L to the
    candidate of the red shirt's own size option and shows the size as
    available. *)
Lemma display_resolves_beyond_adjacent_variants :
  adjacentVariants Catalogue.shirtRedBare = Some [] /\
  SizeSelectorWithQuantities.variantFor (Some Catalogue.shirtRedBare)
    (Some Catalogue.redSizes) (Catalogue.value "L" (Some Catalogue.blueL))
    = Some Catalogue.redL /\
  SizeSelectorWithQuantities.variantFor (Some Catalogue.shirtRedBare)
    (Some Catalogue.redSizes) (Catalogue.value "L" (Some Catalogue.blueL)) <> None /\
  rowAvailable (SizeSelectorWithQuantities.row (Some Catalogue.shirtRedBare)
                  (Some Catalogue.redSizes) ∅ (Catalogue.value "L" (Some Catalogue.blueL)))
    = true.
Proof.
  repeat split. discriminate.
Qed.

(** ** The two resolutions side by side *)

(** The cart resolution is the loose scan, or else the candidate, or
    else the value's own first selectable variant. *)
Lemma cart_variantFor_cases selectedColorProduct effectiveSizeOption (value : OptionValue) :
  ProductForm.variantFor selectedColorProduct effectiveSizeOption value =
  match ProductForm.findVariantForSize selectedColorProduct (valueName value) with
  | Some variant => Some variant
  | None =>
      match candidateFor effectiveSizeOption value with
      | Some candidate => Some candidate
      | None => firstSelectableVariant value
      end
  end.
Proof.
  unfold ProductForm.variantFor, candidateFor.
  destruct (ProductForm.findVariantForSize _ _) as [variant|]; [reflexivity|].
  destruct effectiveSizeOption as [o|]; [|reflexivity]. simpl.
  destruct (findValue (valueName value) (optionValues o)) as [v|]; [|reflexivity].
  simpl. destruct (firstSelectableVariant v); reflexivity.
Qed.

(** C4, at the input where the cart path breaks it: the red shirt is
    selected with no adjacent variant, and the entry for L of its size
    option points at a variant of the green shirt.  The display path
    rejects the candidate and resolves nothing; the cart path takes the
    candidate as it is and builds a line for it. *)
Theorem cart_accepts_foreign_candidate :
  candidateFor (Some Catalogue.redSizesStale) (Catalogue.value "L" (Some Catalogue.blueL))
    = Some Catalogue.greenL /\
  productHandle Catalogue.greenL <> Some (handle Catalogue.shirtRedBare) /\
  SizeSelectorWithQuantities.variantFor (Some Catalogue.shirtRedBare)
    (Some Catalogue.redSizesStale) (Catalogue.value "L" (Some Catalogue.blueL)) = None /\
  ProductForm.variantFor (Some Catalogue.shirtRedBare)
    (Some Catalogue.redSizesStale) (Catalogue.value "L" (Some Catalogue.blueL))
    = Some Catalogue.greenL /\
  ProductForm.cartLines (Some Catalogue.shirtRedBare) (Some Catalogue.redSizesStale)
    {[ "L" := 1%Z ]} Catalogue.blueSizes =
    [ {| merchandiseId := variantId Catalogue.greenL;
         quantity := JS.Int 1;
         selectedVariant := Some Catalogue.greenL |} ].
Proof.
  repeat split. discriminate.
Qed.

(** The two scans of the adjacent variants agree when every adjacent
    variant belongs to the colour product. *)
Lemma findVariantForSize_agree (colorProduct : ProductFragment) (sizeName : string) :
  (forall variant,
      In variant (default [] (adjacentVariants colorProduct)) ->
      productHandle variant = Some (handle colorProduct)) ->
  ProductForm.findVariantForSize (Some colorProduct) sizeName =
  SizeSelectorWithQuantities.findVariantForSize (Some colorProduct) sizeName.
Proof.
  unfold ProductForm.findVariantForSize, SizeSelectorWithQuantities.findVariantForSize.
  destruct (adjacentVariants colorProduct) as [variants|]; [|reflexivity]. simpl.
  induction variants as [|v variants IH]; intros Hall; [reflexivity|].
  cbn [List.find].
  assert (JS.strictEq (productHandle v) (Some (handle colorProduct)) = true) as Hv.
  { apply strictEq_Some, Hall. left. reflexivity. }
  assert (forall variant, In variant variants ->
            productHandle variant = Some (handle colorProduct)) as Hrest.
  { intros variant Hin. apply Hall. right. exact Hin. }
  specialize (IH Hrest).
  destruct (selectedOptions v) as [opts|]; [|exact IH].
  rewrite Hv. cbn [negb].
  destruct (List.find isSizeOpt opts) as [o|]; cbn [mbind option_bind]; [|exact IH].
  destruct (JS.strictEq (JS.trim <$> optValue o) (Some (JS.trim sizeName)));
    [reflexivity | exact IH].
Qed.

(** Without a selected colour, where the effective size option is the
    size option itself, the two resolutions agree on every value of a
    size option whose names are distinct. *)
Lemma resolution_agree_without_color (sizeOption : ProductOption) (value : OptionValue) :
  List.NoDup (List.map valueName (optionValues sizeOption)) ->
  In value (optionValues sizeOption) ->
  ProductForm.variantFor None (Some sizeOption) value =
  SizeSelectorWithQuantities.variantFor None (Some sizeOption) value.
Proof.
  intros Hnd Hin. rewrite cart_variantFor_cases.
  unfold candidateFor. cbn [mbind option_bind].
  rewrite (findValue_self _ _ Hnd Hin). cbn.
  destruct (firstSelectableVariant value); reflexivity.
Qed.

(** C6, at an input where it fails: the red shirt is selected and has
    no 4XL.  The display path resolves nothing for 4XL; the cart path
    falls back to the base product's 4XL, a variant of the blue shirt,
    and so did the earlier revision of the selector. *)
Theorem cart_and_display_resolution_differ :
  SizeSelectorWithQuantities.variantFor (Some Catalogue.shirtRed)
    (Some Catalogue.redSizes) (Catalogue.value "4XL" (Some Catalogue.blue4XL)) = None /\
  ProductForm.variantFor (Some Catalogue.shirtRed)
    (Some Catalogue.redSizes) (Catalogue.value "4XL" (Some Catalogue.blue4XL))
    = Some Catalogue.blue4XL /\
  EarlierRevision.variantFor
    (Some Catalogue.redSizes) (Catalogue.value "4XL" (Some Catalogue.blue4XL))
    = Some Catalogue.blue4XL /\
  productHandle Catalogue.blue4XL <> Some (handle Catalogue.shirtRed) /\
  ProductForm.cartLines (Some Catalogue.shirtRed) (Some Catalogue.redSizes)
    {[ "4XL" := 1%Z ]} Catalogue.blueSizes =
    [ {| merchandiseId := variantId Catalogue.blue4XL;
         quantity := JS.Int 1;
         selectedVariant := Some Catalogue.blue4XL |} ].
Proof.
  repeat split. discriminate.
Qed.

(** ** Prices *)

Lemma find_map {A B : Type} (f : B -> bool) (g : A -> B) (l : list A) :
  List.find f (List.map g l) = g <$> List.find (fun x => f (g x)) l.
Proof.
  induction l as [|x l IH]; [reflexivity|].
  simpl. destruct (f (g x)); [reflexivity | exact IH].
Qed.

Lemma filter_map {A B : Type} (f : B -> bool) (g : A -> B) (l : list A) :
  List.filter f (List.map g l) = List.map g (List.filter (fun x => f (g x)) l).
Proof.
  induction l as [|x l IH]; [reflexivity|].
  simpl. destruct (f (g x)); simpl; [f_equal|]; exact IH.
Qed.

Section Repricing.

Variable p : ProductVariant -> JS.Str.
Variable selectedColorProduct : option ProductFragment.
Variable effectiveSizeOption : option ProductOption.
Variable sizeQuantities : gmap string Z.

Lemma reprice_findVariantForSize (sizeName : string) :
  ProductForm.findVariantForSize (repriceProduct p <$> selectedColorProduct) sizeName =
  withPrice p <$> ProductForm.findVariantForSize selectedColorProduct sizeName.
Proof.
  unfold ProductForm.findVariantForSize.
  destruct selectedColorProduct as [c|]; [|reflexivity]. simpl.
  destruct (adjacentVariants c) as [variants|]; [|reflexivity]. simpl.
  apply find_map.
Qed.

Lemma reprice_candidateFor (value : OptionValue) :
  candidateFor (repriceOption p <$> effectiveSizeOption) (repriceValue p value) =
  withPrice p <$> candidateFor effectiveSizeOption value.
Proof.
  unfold candidateFor.
  destruct effectiveSizeOption as [o|]; [|reflexivity]. simpl.
  unfold findValue. rewrite find_map. simpl.
  destruct (List.find _ (optionValues o)) as [v|]; reflexivity.
Qed.

Lemma reprice_variantFor (value : OptionValue) :
  ProductForm.variantFor (repriceProduct p <$> selectedColorProduct)
    (repriceOption p <$> effectiveSizeOption) (repriceValue p value) =
  withPrice p <$>
    ProductForm.variantFor selectedColorProduct effectiveSizeOption value.
Proof.
  rewrite !cart_variantFor_cases, reprice_candidateFor.
  cbn [valueName repriceValue]. rewrite reprice_findVariantForSize.
  destruct (ProductForm.findVariantForSize selectedColorProduct (valueName value));
    [reflexivity|].
  destruct (candidateFor effectiveSizeOption value); reflexivity.
Qed.

Lemma reprice_wanted (value : OptionValue) :
  ProductForm.wanted (repriceProduct p <$> selectedColorProduct)
    (repriceOption p <$> effectiveSizeOption) sizeQuantities (repriceValue p value) =
  ProductForm.wanted selectedColorProduct effectiveSizeOption sizeQuantities value.
Proof.
  unfold ProductForm.wanted. rewrite reprice_variantFor.
  cbn [valueName repriceValue].
  destruct (ProductForm.variantFor selectedColorProduct effectiveSizeOption value);
    reflexivity.
Qed.

Lemma reprice_toLine (value : OptionValue) :
  ProductForm.toLine (repriceProduct p <$> selectedColorProduct)
    (repriceOption p <$> effectiveSizeOption) sizeQuantities (repriceValue p value) =
  repriceLine p
    (ProductForm.toLine selectedColorProduct effectiveSizeOption sizeQuantities value).
Proof.
  unfold ProductForm.toLine, repriceLine. rewrite reprice_variantFor.
  cbn [valueName repriceValue merchandiseId quantity selectedVariant].
  destruct (ProductForm.variantFor selectedColorProduct effectiveSizeOption value);
    reflexivity.
Qed.

(** The lines built from re-priced inputs are the re-priced lines
    built from the original inputs. *)
Lemma reprice_cartLines (sizeOption : ProductOption) :
  ProductForm.cartLines (repriceProduct p <$> selectedColorProduct)
    (repriceOption p <$> effectiveSizeOption) sizeQuantities
    (repriceOption p sizeOption) =
  List.map (repriceLine p)
    (ProductForm.cartLines selectedColorProduct effectiveSizeOption sizeQuantities
       sizeOption).
Proof.
  rewrite !cartLines_unfold. cbn [optionValues repriceOption].
  rewrite filter_map, !List.map_map.
  rewrite (List.filter_ext _ _ reprice_wanted).
  apply List.map_ext. exact reprice_toLine.
Qed.

End Repricing.

(** An amount whose first character after leading white space cannot
    start a decimal literal parses to [NaN]. *)
Lemma parseFloat_NaN (amount : string) (c : ascii) (rest : string) :
  JS.trimStart amount = String c rest ->
  JS.isDigit c = false ->
  c <> "+"%char -> c <> "-"%char -> c <> "."%char -> c <> "I"%char ->
  JS.parseFloat amount = JS.NaN.
Proof.
  intros Ht Hd Hplus Hminus Hdot HI. unfold JS.parseFloat. rewrite Ht. clear Ht.
  destruct c as [[] [] [] [] [] [] [] []];
    try discriminate Hd; try (exfalso; congruence); reflexivity.
Qed.

(** C7, as the component computes it: the displayed price is 0 when no
    variant is resolved or the variant's amount is absent or empty, and
    otherwise it is [parseFloat] of the amount, whatever that yields;
    and the cart lines do not depend on prices: building them from
    inputs whose variants carry other prices gives the same lines, with
    the same identifiers and quantities, around the re-priced variants. *)
Theorem price_is_display_only :
  SizeSelectorWithQuantities.priceOf None = JS.zero /\
  (forall variant,
      priceAmount variant = None \/ priceAmount variant = Some "" ->
      SizeSelectorWithQuantities.priceOf (Some variant) = JS.zero) /\
  (forall variant amount,
      priceAmount variant = Some amount -> amount <> "" ->
      SizeSelectorWithQuantities.priceOf (Some variant) = JS.parseFloat amount) /\
  (forall selectedColorProduct effectiveSizeOption (sizeQuantities : gmap string Z) value,
      rowPrice (SizeSelectorWithQuantities.row selectedColorProduct effectiveSizeOption
                  sizeQuantities value) =
      SizeSelectorWithQuantities.priceOf
        (SizeSelectorWithQuantities.variantFor selectedColorProduct effectiveSizeOption
           value)) /\
  (forall p selectedColorProduct effectiveSizeOption (sizeQuantities : gmap string Z)
          sizeOption,
      ProductForm.cartLines (repriceProduct p <$> selectedColorProduct)
        (repriceOption p <$> effectiveSizeOption) sizeQuantities
        (repriceOption p sizeOption) =
      List.map (repriceLine p)
        (ProductForm.cartLines selectedColorProduct effectiveSizeOption sizeQuantities
           sizeOption)).
Proof.
  split; [reflexivity|]. split; [|split; [|split]].
  - intros variant [H|H]; unfold SizeSelectorWithQuantities.priceOf; simpl;
      rewrite H; reflexivity.
  - intros variant amount H Hne. unfold SizeSelectorWithQuantities.priceOf. simpl.
    rewrite H. destruct amount; [contradiction | reflexivity].
  - reflexivity.
  - intros. apply reprice_cartLines.
Qed.

Lemma price_is_display_only_witness :
  SizeSelectorWithQuantities.priceOf (Some (withPrice (fun _ => Some "") Catalogue.blueL))
    = JS.zero /\
  SizeSelectorWithQuantities.priceOf (Some Catalogue.blueL) = JS.Decimal false 2150 (-2) /\
  ProductForm.cartLines (repriceProduct (fun _ => None) <$> Some Catalogue.shirtRed)
    (repriceOption (fun _ => None) <$> Some Catalogue.redSizes) {[ "L" := 2%Z ]}
    (repriceOption (fun _ => None) Catalogue.blueSizes) =
    [ {| merchandiseId := variantId Catalogue.redL;
         quantity := JS.Int 2;
         selectedVariant := Some (withPrice (fun _ => None) Catalogue.redL) |} ].
Proof.
  split; [|split].
  - apply (proj1 (proj2 price_is_display_only)). right. reflexivity.
  - apply (proj1 (proj2 (proj2 price_is_display_only)) Catalogue.blueL "21.50");
      [reflexivity | discriminate].
  - rewrite (proj2 (proj2 (proj2 (proj2 price_is_display_only)))). reflexivity.
Defined.

(** C7 as stated fails: an amount that is not a number gives a row
    price of [NaN], not 0, and a negative amount gives a negative
    price. *)
Lemma malformed_price_is_not_zero :
  SizeSelectorWithQuantities.variantFor None None
    (Catalogue.value "XS" (Some Catalogue.blueUnpriced)) = Some Catalogue.blueUnpriced /\
  priceAmount Catalogue.blueUnpriced = Some "N/A" /\
  rowPrice (SizeSelectorWithQuantities.row None None ∅
              (Catalogue.value "XS" (Some Catalogue.blueUnpriced))) = JS.NaN /\
  JS.isZero (rowPrice (SizeSelectorWithQuantities.row None None ∅
                         (Catalogue.value "XS" (Some Catalogue.blueUnpriced)))) = false /\
  rowPrice (SizeSelectorWithQuantities.row None None ∅
              (Catalogue.value "XL" (Some Catalogue.blueCredit)))
    = JS.Decimal true 500 (-2) /\
  JS.isNegative (rowPrice (SizeSelectorWithQuantities.row None None ∅
                             (Catalogue.value "XL" (Some Catalogue.blueCredit)))) = true.
Proof.
  repeat split.
Qed.

(** ** The size form and its quantity state *)

Lemma filter_nil_iff {A : Type} (f : A -> bool) (l : list A) :
  List.filter f l = [] <-> forall x, In x l -> f x = false.
Proof.
  induction l as [|x l IH]; simpl.
  - split; [intros _ ? [] | reflexivity].
  - destruct (f x) eqn:Hx.
    + split; [discriminate|]. intros H. specialize (H x (or_introl eq_refl)). congruence.
    + rewrite IH. split.
      * intros H y [<-|Hy]; auto.
      * intros H y Hy. apply H. right. exact Hy.
Qed.

(** X1: for a product whose size option has several values,
    [ProductForm] renders the size form with the rows and cart lines of
    that option, and its add-to-cart button is enabled exactly when
    some size value passes the quantity guard and resolves, in the
    cart path, to an available variant with an identifier.  A size
    passes the guard with a positive quantity entered, and also with
    nothing entered when its name is one of [Object.prototype]. *)
Theorem sizeForm_enabled_iff
    (getProductOptions : ProductFragment -> list ProductOption)
    (productOptions : list ProductOption)
    (selectedVariant : option ProductVariant)
    (selectedColorProduct : option ProductFragment)
    (sizeQuantities : gmap string Z) (sizeOption : ProductOption) :
  List.find isSizeOption productOptions = Some sizeOption ->
  1 < length (optionValues sizeOption) ->
  exists disabled,
    productForm getProductOptions productOptions selectedVariant selectedColorProduct
      sizeQuantities =
    SizeForm
      (SizeSelectorWithQuantities.rows selectedColorProduct
         (effectiveSizeOptionOf getProductOptions (Some sizeOption) selectedColorProduct)
         sizeQuantities sizeOption)
      disabled
      (ProductForm.cartLines selectedColorProduct
         (effectiveSizeOptionOf getProductOptions (Some sizeOption) selectedColorProduct)
         sizeQuantities sizeOption) /\
    (disabled = false <->
     exists value variant,
       In value (optionValues sizeOption) /\
       ((exists n, sizeQuantities !! valueName value = Some n /\ (0 < n)%Z) \/
        (sizeQuantities !! valueName value = None /\
         JS.inheritedName (valueName value) = true)) /\
       ProductForm.variantFor selectedColorProduct
         (effectiveSizeOptionOf getProductOptions (Some sizeOption) selectedColorProduct)
         value = Some variant /\
       JS.truthy (variantId variant) = true /\ availableForSale variant = true).
Proof.
  intros Hfind Hlen. unfold productForm. rewrite Hfind.
  apply Nat.ltb_lt in Hlen. rewrite Hlen. eexists. split; [reflexivity|].
  set (eso := effectiveSizeOptionOf _ _ _).
  rewrite cartLines_unfold, List.length_map.
  split.
  - intros Hd.
    destruct (List.filter _ (optionValues sizeOption)) as [|value kept] eqn:Hf;
      [discriminate|].
    assert (In value (List.filter
              (ProductForm.wanted selectedColorProduct eso sizeQuantities)
              (optionValues sizeOption))) as Hin by (rewrite Hf; left; reflexivity).
    apply List.filter_In in Hin as [Hin Hw].
    apply wanted_spec in Hw as (variant & ? & ? & ? & ?).
    exists value, variant. repeat split; assumption.
  - intros (value & variant & Hin & Hq & Hv & Hid & Ha).
    assert (ProductForm.wanted selectedColorProduct eso sizeQuantities value = true) as Hw.
    { apply wanted_spec. exists variant. auto. }
    destruct (List.filter _ (optionValues sizeOption)) as [|v kept] eqn:Hf;
      [|reflexivity].
    exfalso. rewrite filter_nil_iff in Hf. rewrite (Hf value Hin) in Hw. discriminate.
Qed.

Lemma sizeForm_enabled_iff_witness :
  exists disabled,
    productForm (fun _ => [Catalogue.redSizes]) [Catalogue.blueSizes]
      (Some Catalogue.blueS) (Some Catalogue.shirtRed) {[ "L" := 2%Z ]} =
    SizeForm
      (SizeSelectorWithQuantities.rows (Some Catalogue.shirtRed)
         (effectiveSizeOptionOf (fun _ => [Catalogue.redSizes]) (Some Catalogue.blueSizes)
            (Some Catalogue.shirtRed))
         {[ "L" := 2%Z ]} Catalogue.blueSizes)
      disabled
      (ProductForm.cartLines (Some Catalogue.shirtRed)
         (effectiveSizeOptionOf (fun _ => [Catalogue.redSizes]) (Some Catalogue.blueSizes)
            (Some Catalogue.shirtRed))
         {[ "L" := 2%Z ]} Catalogue.blueSizes) /\
    (disabled = false <->
     exists value variant,
       In value (optionValues Catalogue.blueSizes) /\
       ((exists n,
            ({[ "L" := 2%Z ]} : gmap string Z) !! valueName value = Some n /\ (0 < n)%Z) \/
        (({[ "L" := 2%Z ]} : gmap string Z) !! valueName value = None /\
         JS.inheritedName (valueName value) = true)) /\
       ProductForm.variantFor (Some Catalogue.shirtRed)
         (effectiveSizeOptionOf (fun _ => [Catalogue.redSizes]) (Some Catalogue.blueSizes)
            (Some Catalogue.shirtRed))
         value = Some variant /\
       JS.truthy (variantId variant) = true /\ availableForSale variant = true).
Proof.
  apply (sizeForm_enabled_iff (fun _ => [Catalogue.redSizes]) [Catalogue.blueSizes]
           (Some Catalogue.blueS) (Some Catalogue.shirtRed) {[ "L" := 2%Z ]}
           Catalogue.blueSizes).
  - reflexivity.
  - simpl. lia.
Defined.

(** X2: a quantity change for one size leaves every size of another
    name as it was, in the display and in the cart pipeline; for the
    size itself it changes the displayed quantity and nothing else of
    the row. *)
Theorem handleQuantityChange_local
    (selectedColorProduct : option ProductFragment)
    (effectiveSizeOption : option ProductOption)
    (sizeQuantities : gmap string Z) (sizeName : string) (n : Z) (value : OptionValue) :
  (valueName value <> sizeName ->
   SizeSelectorWithQuantities.row selectedColorProduct effectiveSizeOption
     (handleQuantityChange sizeName n sizeQuantities) value =
   SizeSelectorWithQuantities.row selectedColorProduct effectiveSizeOption
     sizeQuantities value /\
   ProductForm.wanted selectedColorProduct effectiveSizeOption
     (handleQuantityChange sizeName n sizeQuantities) value =
   ProductForm.wanted selectedColorProduct effectiveSizeOption sizeQuantities value /\
   ProductForm.toLine selectedColorProduct effectiveSizeOption
     (handleQuantityChange sizeName n sizeQuantities) value =
   ProductForm.toLine selectedColorProduct effectiveSizeOption sizeQuantities value) /\
  (valueName value = sizeName ->
   SizeSelectorWithQuantities.row selectedColorProduct effectiveSizeOption
     (handleQuantityChange sizeName n sizeQuantities) value =
   {| rowVariant := rowVariant (SizeSelectorWithQuantities.row selectedColorProduct
                                  effectiveSizeOption sizeQuantities value);
      rowQuantity := JS.Int n;
      rowPrice := rowPrice (SizeSelectorWithQuantities.row selectedColorProduct
                              effectiveSizeOption sizeQuantities value);
      rowAvailable := rowAvailable (SizeSelectorWithQuantities.row selectedColorProduct
                                      effectiveSizeOption sizeQuantities value);
      rowStock := rowStock (SizeSelectorWithQuantities.row selectedColorProduct
                              effectiveSizeOption sizeQuantities value) |}).
Proof.
  unfold handleQuantityChange. split.
  - intros Hne.
    unfold SizeSelectorWithQuantities.row, ProductForm.wanted, ProductForm.toLine, JS.get.
    rewrite !lookup_insert_ne by congruence. repeat split; reflexivity.
  - intros <-. unfold SizeSelectorWithQuantities.row, JS.get.
    rewrite lookup_insert_eq. cbn [rowVariant rowPrice rowAvailable rowStock].
    f_equal. unfold JS.orZero, JS.truthyProperty.
    destruct (Z.eqb_spec n 0) as [->|]; reflexivity.
Qed.

Lemma handleQuantityChange_local_witness :
  rowQuantity (SizeSelectorWithQuantities.row (Some Catalogue.shirtRed)
                 (Some Catalogue.redSizes)
                 (handleQuantityChange "L" 4%Z {[ "S" := 1%Z ]})
                 (Catalogue.value "L" (Some Catalogue.blueL))) = JS.Int 4 /\
  SizeSelectorWithQuantities.row (Some Catalogue.shirtRed) (Some Catalogue.redSizes)
    (handleQuantityChange "L" 4%Z {[ "S" := 1%Z ]})
    (Catalogue.value "S" (Some Catalogue.blueS)) =
  SizeSelectorWithQuantities.row (Some Catalogue.shirtRed) (Some Catalogue.redSizes)
    {[ "S" := 1%Z ]} (Catalogue.value "S" (Some Catalogue.blueS)).
Proof.
  split.
  - rewrite (proj2 (handleQuantityChange_local (Some Catalogue.shirtRed)
                      (Some Catalogue.redSizes) {[ "S" := 1%Z ]} "L" 4%Z
                      (Catalogue.value "L" (Some Catalogue.blueL))) eq_refl).
    reflexivity.
  - apply (proj1 (handleQuantityChange_local (Some Catalogue.shirtRed)
                    (Some Catalogue.redSizes) {[ "S" := 1%Z ]} "L" 4%Z
                    (Catalogue.value "S" (Some Catalogue.blueS)))).
    discriminate.
Defined.

(** X3: after text is typed into a size's field, the quantity stored
    for that size is the integer the text starts with, or 0 when it
    starts with none; and the size passes the first filter of the cart
    lines exactly when that integer is positive and the size resolves
    to an available variant with an identifier.  Blank, non-numeric,
    zero and negative text all leave the size without a line. *)
Theorem onChange_line
    (selectedColorProduct : option ProductFragment)
    (effectiveSizeOption : option ProductOption)
    (sizeQuantities : gmap string Z) (value : OptionValue) (text : string) :
  onChange value text sizeQuantities !! valueName value =
    Some (default 0%Z (JSText.parseInt10 text)) /\
  (ProductForm.wanted selectedColorProduct effectiveSizeOption
     (onChange value text sizeQuantities) value = true <->
   exists n variant,
     JSText.parseInt10 text = Some n /\ (0 < n)%Z /\
     ProductForm.variantFor selectedColorProduct effectiveSizeOption value = Some variant /\
     JS.truthy (variantId variant) = true /\ availableForSale variant = true).
Proof.
  assert (onChange value text sizeQuantities !! valueName value =
          Some (default 0%Z (JSText.parseInt10 text))) as Hq.
  { unfold onChange, handleQuantityChange. apply lookup_insert_eq. }
  split; [exact Hq|]. rewrite wanted_spec, Hq. split.
  - intros (variant & [(n & [= <-] & Hn)|[Hnone _]] & Hv & Hid & Ha);
      [|discriminate Hnone].
    destruct (JSText.parseInt10 text) as [m|]; simpl in Hn; [|lia].
    exists m, variant. auto.
  - intros (n & variant & -> & Hn & Hv & Hid & Ha).
    exists variant. repeat split; auto. left. exists n. auto.
Qed.

(** ** The display and the cart lines together *)

Section RowsAndLines.

Variable sizeQuantities : gmap string Z.

(** Where both paths resolve a size to the same variant, the line the
    row stands for is the line the cart pipeline builds, and there is
    one exactly when the quantity read is a positive integer and the
    value passes the first filter. *)
Lemma rowLine_of_wanted
    (selectedColorProduct : option ProductFragment)
    (effectiveSizeOption : option ProductOption)
    (value : OptionValue) (variant : ProductVariant) :
  ProductForm.variantFor selectedColorProduct effectiveSizeOption value = Some variant ->
  SizeSelectorWithQuantities.variantFor selectedColorProduct effectiveSizeOption value
    = Some variant ->
  (forall c, selectedColorProduct = Some c -> productHandle variant = Some (handle c)) ->
  rowLine (SizeSelectorWithQuantities.row selectedColorProduct effectiveSizeOption
             sizeQuantities value) =
  if JS.gtZero (JS.get sizeQuantities (valueName value))
     && ProductForm.wanted selectedColorProduct effectiveSizeOption sizeQuantities value
  then Some (ProductForm.toLine selectedColorProduct effectiveSizeOption
               sizeQuantities value)
  else None.
Proof.
  intros Hc Hd Hh.
  unfold rowLine, SizeSelectorWithQuantities.row, ProductForm.wanted, ProductForm.toLine.
  cbn [rowVariant rowQuantity rowAvailable]. rewrite Hc, Hd.
  assert (SizeSelectorWithQuantities.availableOf selectedColorProduct (Some variant) value
          = availableForSale variant) as ->.
  { unfold SizeSelectorWithQuantities.availableOf.
    destruct selectedColorProduct as [c|].
    - rewrite (proj2 (strictEq_Some _ _) (Hh c eq_refl)).
      destruct (availableForSale variant); reflexivity.
    - destruct (availableForSale variant); reflexivity. }
  cbv zeta. cbn [mbind option_bind].
  destruct (JS.get sizeQuantities (valueName value)) as [|n|name];
    [reflexivity| |reflexivity].
  unfold JS.orZero. cbn [JS.truthyProperty JS.leZero JS.gtZero].
  destruct (Z.eqb_spec n 0) as [->|Hn0]; [reflexivity|]. cbn [negb orb JS.gtZero].
  destruct (Z.leb_spec n 0) as [Hle|Hgt].
  - destruct (Z.ltb_spec 0 n); [lia | reflexivity].
  - destruct (Z.ltb_spec 0 n); [|lia]. cbn [andb].
    rewrite andb_comm. destruct (_ && _); reflexivity.
Qed.

(** A quantity that is not a positive integer passes the first filter
    only as a member of [Object.prototype]. *)
Lemma wanted_positive
    (selectedColorProduct : option ProductFragment)
    (effectiveSizeOption : option ProductOption) (value : OptionValue) :
  JS.inheritedName (valueName value) = false ->
  ProductForm.wanted selectedColorProduct effectiveSizeOption sizeQuantities value = true ->
  JS.gtZero (JS.get sizeQuantities (valueName value)) = true.
Proof.
  intros Hown (variant & [(n & Hn & Hpos)|[_ Hinh]] & _)%wanted_spec; [|congruence].
  rewrite (get_own _ _ _ Hn). apply Z.ltb_lt, Hpos.
Qed.

End RowsAndLines.

(** X4: without a selected colour product, where the effective size
    option is the size option itself, with distinct size names none of
    which is the name of a member of [Object.prototype], the cart lines
    are exactly the lines of the displayed rows, in order: one for each
    row that has a variant with an identifier, a positive quantity and
    is available. *)
Theorem cartLines_are_rowLines
    (sizeQuantities : gmap string Z) (sizeOption : ProductOption) :
  List.NoDup (List.map valueName (optionValues sizeOption)) ->
  (forall value,
      In value (optionValues sizeOption) -> JS.inheritedName (valueName value) = false) ->
  ProductForm.cartLines None (Some sizeOption) sizeQuantities sizeOption =
  omap rowLine
    (SizeSelectorWithQuantities.rows None (Some sizeOption) sizeQuantities sizeOption).
Proof.
  intros Hnd Hown. rewrite cartLines_unfold. unfold SizeSelectorWithQuantities.rows.
  assert (forall values,
             (forall v, In v values -> In v (optionValues sizeOption)) ->
             List.map (ProductForm.toLine None (Some sizeOption) sizeQuantities)
               (List.filter (ProductForm.wanted None (Some sizeOption) sizeQuantities)
                  values) =
             omap rowLine
               (List.map (SizeSelectorWithQuantities.row None (Some sizeOption)
                            sizeQuantities) values)) as Hgen.
  { induction values as [|value values IH]; intros Hsub; [reflexivity|].
    cbn [List.filter List.map omap list_omap].
    assert (In value (optionValues sizeOption)) as Hin by (apply Hsub; left; reflexivity).
    specialize (IH (fun v Hv => Hsub v (or_intror Hv))).
    pose proof (resolution_agree_without_color sizeOption value Hnd Hin) as Hagree.
    destruct (ProductForm.variantFor None (Some sizeOption) value) as [variant|] eqn:Hc.
    - rewrite (rowLine_of_wanted sizeQuantities None (Some sizeOption) value variant Hc
                 (eq_sym Hagree)) by discriminate.
      destruct (ProductForm.wanted None (Some sizeOption) sizeQuantities value) eqn:Hw.
      + rewrite (wanted_positive sizeQuantities None (Some sizeOption) value
                   (Hown value Hin) Hw).
        cbn [andb List.map]. rewrite IH. reflexivity.
      + rewrite andb_false_r. exact IH.
    - assert (ProductForm.wanted None (Some sizeOption) sizeQuantities value = false) as ->.
      { unfold ProductForm.wanted. rewrite Hc. cbv zeta.
        destruct (negb _ || _); reflexivity. }
      unfold rowLine at 1, SizeSelectorWithQuantities.row at 1.
      cbn [rowVariant]. rewrite <- Hagree. exact IH. }
  apply Hgen. auto.
Qed.

Lemma cartLines_are_rowLines_witness :
  ProductForm.cartLines None (Some Catalogue.blueSizes) {[ "M" := 2%Z ]} Catalogue.blueSizes =
  omap rowLine
    (SizeSelectorWithQuantities.rows None (Some Catalogue.blueSizes) {[ "M" := 2%Z ]}
       Catalogue.blueSizes).
Proof.
  apply (cartLines_are_rowLines {[ "M" := 2%Z ]} Catalogue.blueSizes).
  - repeat constructor; simpl; intuition discriminate.
  - intros value [<-|[<-|[<-|[<-|[]]]]]; reflexivity.
Defined.

(** X5: with a colour product selected whose adjacent variants all
    carry its handle, every displayed row of the size option that
    stands for a line (a variant with an identifier, a positive
    quantity, available) has that very line among the cart lines. *)
Theorem rowLine_in_cartLines
    (colorProduct : ProductFragment) (effectiveSizeOption : option ProductOption)
    (sizeQuantities : gmap string Z) (sizeOption : ProductOption)
    (value : OptionValue) (line : CartLine) :
  (forall variant,
      In variant (default [] (adjacentVariants colorProduct)) ->
      productHandle variant = Some (handle colorProduct)) ->
  In value (optionValues sizeOption) ->
  rowLine (SizeSelectorWithQuantities.row (Some colorProduct) effectiveSizeOption
             sizeQuantities value) = Some line ->
  In line (ProductForm.cartLines (Some colorProduct) effectiveSizeOption
             sizeQuantities sizeOption).
Proof.
  intros Hown Hin Hrow.
  destruct (SizeSelectorWithQuantities.variantFor (Some colorProduct) effectiveSizeOption
              value) as [variant|] eqn:Hd; cycle 1.
  { unfold rowLine, SizeSelectorWithQuantities.row in Hrow. cbn [rowVariant] in Hrow.
    rewrite Hd in Hrow. discriminate. }
  pose proof (display_variantFor_sound _ _ _ _ Hd) as [Hh _].
  assert (ProductForm.variantFor (Some colorProduct) effectiveSizeOption value
          = Some variant) as Hc.
  { rewrite cart_variantFor_cases, (findVariantForSize_agree _ _ Hown).
    rewrite display_variantFor_cases in Hd.
    destruct (SizeSelectorWithQuantities.findVariantForSize _ _); [exact Hd|].
    destruct (candidateFor effectiveSizeOption value) as [candidate|]; [|discriminate].
    destruct (_ && _); [exact Hd | discriminate]. }
  rewrite (rowLine_of_wanted sizeQuantities (Some colorProduct) effectiveSizeOption
             value variant Hc Hd) in Hrow by (intros c [= <-]; exact Hh).
  destruct (ProductForm.wanted _ _ _ value) eqn:Hw;
    [|rewrite andb_false_r in Hrow; discriminate].
  destruct (JS.gtZero _); [|discriminate].
  injection Hrow as <-. rewrite cartLines_unfold.
  apply List.in_map, List.filter_In. auto.
Qed.

Lemma rowLine_in_cartLines_witness :
  In {| merchandiseId := variantId Catalogue.redL;
        quantity := JS.Int 2;
        selectedVariant := Some Catalogue.redL |}
     (ProductForm.cartLines (Some Catalogue.shirtRed) (Some Catalogue.redSizes)
        {[ "L" := 2%Z ]} Catalogue.blueSizes).
Proof.
  apply (rowLine_in_cartLines Catalogue.shirtRed (Some Catalogue.redSizes)
           {[ "L" := 2%Z ]} Catalogue.blueSizes
           (Catalogue.value "L" (Some Catalogue.blueL))).
  - intros variant [<-|[<-|[]]]; reflexivity.
  - simpl. auto.
  - reflexivity.
Defined.

Lemma onChange_line_witness :
  ProductForm.wanted (Some Catalogue.shirtRed) (Some Catalogue.redSizes)
    (onChange (Catalogue.value "L" (Some Catalogue.blueL)) " 12 pieces" ∅)
    (Catalogue.value "L" (Some Catalogue.blueL)) = true.
Proof.
  apply (proj2 (onChange_line (Some Catalogue.shirtRed) (Some Catalogue.redSizes) ∅
                  (Catalogue.value "L" (Some Catalogue.blueL)) " 12 pieces")).
  exists 12%Z, Catalogue.redL. repeat split; reflexivity.
Defined.

(** ** What the stock text tells *)

Ltac stock_facts :=
  repeat match goal with
    | |- _ /\ _ => split
    | |- _ <-> _ => split
    | |- forall _, _ => intro
    | H : _ /\ _ |- _ => destruct H
    | H : _ \/ _ |- _ => destruct H
    | H : exists _, _ |- _ => destruct H
    | H : Some _ = Some _ |- _ => injection H as H; subst
    | H : InStock _ = InStock _ |- _ => injection H as H; try subst
    | H : Count _ = Count _ |- _ => injection H as H; subst
    | H1 : ?x = Some _, H2 : ?x = Some _ |- _ => rewrite H1 in H2
    | H1 : ?x = Some _, H2 : ?x = None |- _ => rewrite H1 in H2
    end.

Ltac stock_close :=
  first
    [ discriminate
    | lia
    | reflexivity
    | solve [do 2 eexists; repeat split; first [eassumption | reflexivity | lia]]
    | solve [eexists; repeat split; first [eassumption | reflexivity | lia]]
    | solve [left; do 2 eexists; repeat split; first [eassumption | reflexivity | lia]]
    | solve [right; repeat split; first [eassumption | reflexivity]] ].

Ltac stock_cases := stock_facts; stock_close.

(** X6: the cell of a size shows "Out of Stock" exactly when the row's
    stock is not positive, and "999+" exactly when the variant's
    inventory count is 999 or more, or there is no inventory count and
    the row is available; a smaller number shown is always the
    variant's own inventory count.  The input is enabled next to "Out
    of Stock" exactly when the row is available and its variant has an
    inventory count that is not positive. *)
Theorem cell_stock_view
    (selectedColorProduct : option ProductFragment)
    (effectiveSizeOption : option ProductOption)
    (sizeQuantities : gmap string Z) (value : OptionValue) :
  let r := SizeSelectorWithQuantities.row selectedColorProduct effectiveSizeOption
             sizeQuantities value in
  (cellStock (cell value r) = OutOfStock <-> (rowStock r <= 0)%Z) /\
  (cellStock (cell value r) = InStock Plus999 <->
   (exists variant n,
       rowVariant r = Some variant /\ quantityAvailable variant = Some n /\ (999 <= n)%Z) \/
   (rowVariant r ≫= quantityAvailable = None /\ rowAvailable r = true)) /\
  (forall n,
      cellStock (cell value r) = InStock (Count n) ->
      (0 < n < 999)%Z /\
      exists variant, rowVariant r = Some variant /\ quantityAvailable variant = Some n) /\
  (cellInputDisabled (cell value r) = false /\ cellStock (cell value r) = OutOfStock <->
   rowAvailable r = true /\
   exists variant n,
     rowVariant r = Some variant /\ quantityAvailable variant = Some n /\ (n <= 0)%Z).
Proof.
  cbn zeta. unfold cell, stockView, SizeSelectorWithQuantities.row.
  cbn [cellStock cellInputDisabled rowStock rowVariant rowAvailable].
  unfold SizeSelectorWithQuantities.stockQuantityOf.
  set (variant := SizeSelectorWithQuantities.variantFor _ _ value).
  set (a := SizeSelectorWithQuantities.availableOf _ variant value).
  clearbody a variant.
  destruct variant as [v|]; cbn [mbind option_bind];
    [destruct (quantityAvailable v) as [n|] eqn:Hn|];
    [destruct (Z.ltb_spec 0 n); [destruct (Z.leb_spec 999 n)|]| |];
    destruct a; cbn [negb]; stock_cases.
Qed.

Lemma cell_stock_view_witness :
  cellInputDisabled
    (cell (Catalogue.value "L" (Some Catalogue.blueBackorder))
       (SizeSelectorWithQuantities.row None None ∅
          (Catalogue.value "L" (Some Catalogue.blueBackorder)))) = false /\
  cellStock
    (cell (Catalogue.value "L" (Some Catalogue.blueBackorder))
       (SizeSelectorWithQuantities.row None None ∅
          (Catalogue.value "L" (Some Catalogue.blueBackorder)))) = OutOfStock.
Proof.
  apply (proj2 (proj2 (proj2 (proj2
           (cell_stock_view None None ∅
              (Catalogue.value "L" (Some Catalogue.blueBackorder))))))).
  split; [reflexivity|]. exists Catalogue.blueBackorder, 0%Z.
  repeat split. lia.
Defined.

(** ** Option groups *)

(** X7: every option group [ProductForm] renders is one of the
    product's options, in their order, and never one with exactly one
    value; when the size selector is shown no group is rendered for any
    option named size, in whatever letter case; and the size option the
    form works with is rendered as a group only when it has no value
    at all. *)
Theorem optionGroups_rendered (productOptions : list ProductOption) :
  sublist (omap (fun g => g) (optionGroups productOptions)) productOptions /\
  (forall g,
      In (Some g) (optionGroups productOptions) ->
      In g productOptions /\ length (optionValues g) <> 1 /\
      (forall sizeOption,
          List.find isSizeOption productOptions = Some sizeOption ->
          (1 < length (optionValues sizeOption) -> isSizeOption g = false) /\
          (g = sizeOption -> optionValues g = []))).
Proof.
  assert (forall l, sublist (omap (fun g => g) (List.map ProductOptionGroup l)) l) as Hsub.
  { induction l as [|o l IH]; [constructor|].
    cbn [List.map omap list_omap]. unfold ProductOptionGroup at 1.
    destruct (Nat.eqb _ 1); [apply sublist_cons | apply sublist_skip]; exact IH. }
  assert (forall l g, In (Some g) (List.map ProductOptionGroup l) ->
                      In g l /\ length (optionValues g) <> 1) as Hin.
  { intros l g (o & Ho & Hio)%List.in_map_iff. unfold ProductOptionGroup in Ho.
    destruct (Nat.eqb_spec (length (optionValues o)) 1); [discriminate|].
    injection Ho as <-. auto. }
  unfold optionGroups.
  destruct (List.find isSizeOption productOptions) as [sizeOption|] eqn:Hfind.
  - destruct (Nat.ltb_spec 1 (length (optionValues sizeOption))) as [Hlen|Hlen].
    + split.
      * etransitivity; [apply Hsub | apply filter_sublist_of].
      * intros g [Hg Hone]%Hin. apply List.filter_In in Hg as [Hg Hns].
        apply negb_true_iff in Hns. split; [exact Hg|]. split; [exact Hone|].
        intros so [= <-]. split; [auto|]. intros ->.
        apply List.find_some in Hfind as [_ Hs]. congruence.
    + split; [apply Hsub|]. intros g [Hg Hone]%Hin. split; [exact Hg|].
      split; [exact Hone|]. intros so [= <-]. split; [lia|]. intros ->.
      destruct (optionValues sizeOption) as [|v [|w vs]]; simpl in *;
        [reflexivity | congruence | lia].
  - split; [apply Hsub|]. intros g [Hg Hone]%Hin. split; [exact Hg|].
    split; [exact Hone|]. intros so Hso. discriminate Hso.
Qed.

Lemma optionGroups_rendered_witness :
  In {| optionName := "Color"; optionValues := [ Catalogue.value "Red" None;
                                                 Catalogue.value "Blue" None ] |}
     [ {| optionName := "Color"; optionValues := [ Catalogue.value "Red" None;
                                                   Catalogue.value "Blue" None ] |};
       Catalogue.blueSizes ] /\
  isSizeOption {| optionName := "Color"; optionValues := [ Catalogue.value "Red" None;
                                                           Catalogue.value "Blue" None ] |}
    = false.
Proof.
  destruct (proj2 (optionGroups_rendered
                     [ {| optionName := "Color";
                          optionValues := [ Catalogue.value "Red" None;
                                            Catalogue.value "Blue" None ] |};
                       Catalogue.blueSizes ])
              {| optionName := "Color";
                 optionValues := [ Catalogue.value "Red" None;
                                   Catalogue.value "Blue" None ] |})
    as (Hin & _ & Hsize).
  - left. reflexivity.
  - split; [exact Hin|].
    apply (proj1 (Hsize Catalogue.blueSizes eq_refl)). simpl. lia.
Defined.

(** ** The earlier revision *)

(** X8: in the earlier revision too, every cart line has a strictly
    positive quantity and a present, non-empty merchandise identifier,
    and it comes from a size value of the base product that exists and
    is available. *)
Theorem earlier_cartLines_invariant
    (effectiveSizeOption : option ProductOption)
    (sizeQuantities : gmap string Z) (sizeOption : ProductOption) :
  Forall (fun line =>
            JS.truthy (merchandiseId line) = true /\
            exists value n,
              In value (optionValues sizeOption) /\
              exists_ value = true /\ available value = true /\
              sizeQuantities !! valueName value = Some n /\ (0 < n)%Z /\
              line = EarlierForm.toLine effectiveSizeOption sizeQuantities value)
    (EarlierForm.cartLines effectiveSizeOption sizeQuantities sizeOption).
Proof.
  apply List.Forall_forall. intros line Hin. unfold EarlierForm.cartLines in Hin.
  apply List.filter_In in Hin as [Hin Hid]. split; [exact Hid|].
  apply List.in_map_iff in Hin as (value & <- & Hin).
  apply List.filter_In in Hin as [Hin Hw]. unfold EarlierForm.wanted in Hw.
  cbv zeta in Hw.
  apply andb_true_iff in Hw as [Hw Ha]. apply andb_true_iff in Hw as [Hw He].
  apply positive_spec in Hw as (n & Hq & Hn).
  exists value, n. repeat split; assumption.
Qed.

(** X9: the cart resolution of the current revision is its scan of the
    selected colour product's adjacent variants and, where that finds
    nothing, the resolution of the earlier revision; without a selected
    colour product the two revisions resolve every size alike. *)
Theorem cart_resolution_extends_earlier
    (selectedColorProduct : option ProductFragment)
    (effectiveSizeOption : option ProductOption) (value : OptionValue) :
  ProductForm.variantFor selectedColorProduct effectiveSizeOption value =
    match ProductForm.findVariantForSize selectedColorProduct (valueName value) with
    | Some variant => Some variant
    | None => EarlierRevision.variantFor effectiveSizeOption value
    end /\
  ProductForm.variantFor None effectiveSizeOption value =
    EarlierRevision.variantFor effectiveSizeOption value.
Proof.
  assert (forall c, ProductForm.variantFor c effectiveSizeOption value =
            match ProductForm.findVariantForSize c (valueName value) with
            | Some variant => Some variant
            | None => EarlierRevision.variantFor effectiveSizeOption value
            end) as H.
  { intros c. rewrite cart_variantFor_cases. unfold EarlierRevision.variantFor, candidateFor.
    destruct (ProductForm.findVariantForSize c (valueName value)); [reflexivity|].
    destruct effectiveSizeOption as [o|]; [|reflexivity]. cbn [mbind option_bind].
    destruct (findValue (valueName value) (optionValues o)) as [v|]; [|reflexivity].
    cbn [mbind option_bind]. destruct (firstSelectableVariant v); reflexivity. }
  split; [apply H|]. rewrite H. reflexivity.
Qed.

(** X10: in the earlier revision, with the size option as its own
    effective size option and distinct size names, every displayed row
    that stands for a line (a variant with an identifier, a positive
    quantity, available) has that line among the cart lines. *)
Theorem earlier_rowLine_in_cartLines
    (sizeQuantities : gmap string Z) (sizeOption : ProductOption)
    (value : OptionValue) (line : CartLine) :
  List.NoDup (List.map valueName (optionValues sizeOption)) ->
  In value (optionValues sizeOption) ->
  rowLine (EarlierForm.row (Some sizeOption) sizeQuantities value) = Some line ->
  In line (EarlierForm.cartLines (Some sizeOption) sizeQuantities sizeOption).
Proof.
  intros Hnd Hin Hrow. unfold rowLine, EarlierForm.row in Hrow.
  cbn [rowVariant rowQuantity rowAvailable mbind option_bind] in Hrow.
  rewrite (findValue_self _ _ Hnd Hin) in Hrow.
  destruct (EarlierRevision.variantFor (Some sizeOption) value) as [variant|] eqn:Hv;
    [|discriminate].
  destruct (JS.get sizeQuantities (valueName value)) as [|n|name] eqn:Hget;
    [discriminate| |discriminate].
  unfold JS.orZero in Hrow. cbn [JS.truthyProperty] in Hrow.
  destruct (Z.eqb_spec n 0) as [->|Hn0]; [discriminate|]. cbn [negb JS.gtZero] in Hrow.
  destruct (Z.ltb_spec 0 n) as [Hq|Hq]; [|discriminate].
  destruct (available value) eqn:Ha; [|discriminate].
  destruct (exists_ value) eqn:He; [|discriminate].
  destruct (availableForSale variant) eqn:Hs; [|discriminate].
  destruct (JS.truthy (variantId variant)) eqn:Hid; [|discriminate].
  cbn [andb] in Hrow. injection Hrow as <-.
  unfold EarlierForm.cartLines. apply List.filter_In. split; [|exact Hid].
  apply List.in_map_iff. exists value. split.
  - unfold EarlierForm.toLine. rewrite Hv, Hget. reflexivity.
  - apply List.filter_In. split; [exact Hin|]. unfold EarlierForm.wanted.
    rewrite Hget, Ha, He. cbn [JS.truthyProperty JS.gtZero].
    destruct (Z.eqb_spec n 0); [lia|].
    destruct (Z.ltb_spec 0 n); [reflexivity | lia].
Qed.

Lemma earlier_rowLine_in_cartLines_witness :
  In {| merchandiseId := variantId Catalogue.blueM;
        quantity := JS.Int 3;
        selectedVariant := Some Catalogue.blueM |}
     (EarlierForm.cartLines (Some Catalogue.blueSizes) {[ "M" := 3%Z ]} Catalogue.blueSizes).
Proof.
  apply (earlier_rowLine_in_cartLines {[ "M" := 3%Z ]} Catalogue.blueSizes
           (Catalogue.value "M" (Some Catalogue.blueM))).
  - repeat constructor; simpl; intuition discriminate.
  - simpl. auto.
  - reflexivity.
Defined.

(** X11: every cart line of the current revision references a variant
    that is available for sale, and its merchandise identifier is that
    variant's identifier. *)
Theorem cartLines_variant_available
    (selectedColorProduct : option ProductFragment)
    (effectiveSizeOption : option ProductOption)
    (sizeQuantities : gmap string Z) (sizeOption : ProductOption) :
  Forall (fun line =>
            exists variant,
              selectedVariant line = Some variant /\
              availableForSale variant = true /\
              merchandiseId line = variantId variant)
    (ProductForm.cartLines selectedColorProduct effectiveSizeOption
       sizeQuantities sizeOption).
Proof.
  apply List.Forall_forall. intros line Hin.
  apply cartLines_origin in Hin as (value & _ & Hw & ->).
  apply wanted_spec in Hw as (variant & _ & Hv & _ & Ha).
  exists variant. unfold ProductForm.toLine. rewrite Hv. auto.
Qed.

(** ** Tags and colour codes *)

Lemma prefix_app (p rest : string) : String.prefix p (p ++ rest) = true.
Proof.
  induction p as [|c p IH]; simpl.
  - destruct rest; reflexivity.
  - destruct (Ascii.ascii_dec c c) as [_|Hne]; [exact IH | contradiction].
Qed.

Lemma prefix_split (p text : string) :
  String.prefix p text = true -> exists rest, text = p ++ rest.
Proof.
  revert text. induction p as [|c p IH]; intros text H.
  - exists text. reflexivity.
  - destruct text as [|d text]; [discriminate|]. simpl in H.
    destruct (Ascii.ascii_dec c d) as [->|]; [|discriminate].
    destruct (IH _ H) as [rest ->]. exists rest. reflexivity.
Qed.

Lemma dropUnits_app (p rest : string) :
  JSText.dropUnits (String.length p) (p ++ rest) = rest.
Proof. induction p as [|c p IH]; [reflexivity | exact IH]. Qed.

Lemma removeFirst_eq (p text : string) :
  JSText.removeFirst p text =
  if String.prefix p text then JSText.dropUnits (String.length p) text
  else
    match text with
    | EmptyString => EmptyString
    | String c rest => String c (JSText.removeFirst p rest)
    end.
Proof. destruct text; reflexivity. Qed.

Lemma removeFirst_prefix (p rest : string) : JSText.removeFirst p (p ++ rest) = rest.
Proof. rewrite removeFirst_eq, prefix_app. apply dropUnits_app. Qed.

Lemma findTag_split (prefix : string) (tags : option (list string)) (tag : string) :
  findTag prefix tags = Some tag ->
  exists ts rest, tags = Some ts /\ In tag ts /\ tag = prefix ++ rest.
Proof.
  unfold findTag. destruct tags as [ts|]; [|discriminate]. simpl.
  intros [Hin Hp]%List.find_some. apply prefix_split in Hp as [rest ->]. eauto.
Qed.

(** X12: the colour code of a product is the text that follows
    [colorCode:] in the first of its tags that starts so, without the
    white space around it; a product has no colour code exactly when it
    has no tags or none of them starts with [colorCode:]. *)
Theorem colorCodeOf_tag (p : PageProduct) :
  (forall tags rest,
      pageTags p = Some tags ->
      List.find (JSText.startsWith "colorCode:") tags = Some ("colorCode:" ++ rest) ->
      colorCodeOf p = Some (JS.trim rest)) /\
  (forall code,
      colorCodeOf p = Some code ->
      exists tags rest,
        pageTags p = Some tags /\ In ("colorCode:" ++ rest) tags /\ code = JS.trim rest) /\
  (colorCodeOf p = None <->
   forall tags tag,
     pageTags p = Some tags -> In tag tags -> JSText.startsWith "colorCode:" tag = false).
Proof.
  unfold colorCodeOf, findTag, tagValue. split; [|split].
  - intros tags rest -> Hfind. cbn [mbind option_bind]. rewrite Hfind.
    unfold fmap, option_fmap, option_map. cbv beta iota.
    f_equal. f_equal. apply removeFirst_prefix.
  - intros code Hc. destruct (pageTags p) as [tags|]; [|discriminate].
    cbn [mbind option_bind] in Hc.
    destruct (List.find _ tags) as [tag|] eqn:Hfind; [|discriminate].
    apply List.find_some in Hfind as [Hin [rest ->]%prefix_split].
    exists tags, rest. split; [reflexivity|]. split; [exact Hin|].
    pose proof (removeFirst_prefix "colorCode:" rest) as Hrest.
    unfold fmap, option_fmap, option_map in Hc. congruence.
  - destruct (pageTags p) as [tags|]; cbn [mbind option_bind].
    + destruct (List.find _ tags) as [tag|] eqn:Hfind.
      * split; [discriminate|]. intros H.
        apply List.find_some in Hfind as [Hin Hp].
        rewrite (H tags tag eq_refl Hin) in Hp. discriminate.
      * split; [|reflexivity]. intros _ ts tag [= <-] Hin.
        exact (List.find_none _ _ Hfind tag Hin).
    + split; [|reflexivity]. intros _ ts tag H. discriminate H.
Qed.

(** ** Lists that grow by entries with new keys

    The colour map and the image list are both built by visiting a
    list and appending the entry of each element unless an entry with
    the same key is already there. *)

Section AppendNew.

Variables (X A K : Type).
Variable entry : X -> option A.
Variable key : A -> K.
Variable keq : K -> K -> bool.
Variable add : list A -> X -> list A.

Hypothesis keq_spec : forall a b, keq a b = true <-> a = b.
Hypothesis add_spec :
  forall acc x,
    add acc x =
    match entry x with
    | Some e =>
        if List.existsb (fun a => keq (key a) (key e)) acc then acc else (acc ++ [e])%list
    | None => acc
    end.

Lemma has_key_In (acc : list A) (k : K) :
  List.existsb (fun a => keq (key a) k) acc = true <-> In k (List.map key acc).
Proof.
  rewrite List.existsb_exists, List.in_map_iff. split.
  - intros (a & Hin & Heq). apply keq_spec in Heq. eauto.
  - intros (a & Heq & Hin). exists a. split; [exact Hin|]. apply keq_spec, Heq.
Qed.

Lemma fold_add_shape (xs : list X) (acc : list A) :
  exists rest,
    List.fold_left add xs acc = (acc ++ rest)%list /\
    List.NoDup (List.map key rest) /\
    (forall c, In c rest -> ~ In (key c) (List.map key acc)) /\
    (forall c, In c rest -> exists x, In x xs /\ entry x = Some c).
Proof.
  revert acc. induction xs as [|x xs IH]; intros acc.
  - exists []. rewrite List.app_nil_r. repeat split; [constructor | intros ? [] | intros ? []].
  - cbn [List.fold_left]. rewrite add_spec.
    destruct (entry x) as [e|] eqn:He.
    + destruct (List.existsb _ acc) eqn:Hhas.
      * destruct (IH acc) as (rest & Hfold & Hnd & Hnew & Hfrom).
        exists rest. repeat split; auto.
        intros c Hc. destruct (Hfrom c Hc) as (y & Hy & Hey). exists y. split; [right|]; auto.
      * assert (~ In (key e) (List.map key acc)) as Hfresh.
        { rewrite <- has_key_In, Hhas. discriminate. }
        destruct (IH (acc ++ [e])%list) as (rest & Hfold & Hnd & Hnew & Hfrom).
        exists (e :: rest). rewrite Hfold, <- List.app_assoc. split; [reflexivity|].
        split; [|split].
        -- cbn [List.map]. constructor; [|exact Hnd].
           intros (c & Hkc & Hc)%List.in_map_iff. apply (Hnew c Hc).
           rewrite List.map_app, List.in_app_iff. right. left. symmetry. exact Hkc.
        -- intros c [<-|Hc]; [exact Hfresh|]. intros Hin. apply (Hnew c Hc).
           rewrite List.map_app, List.in_app_iff. left. exact Hin.
        -- intros c [<-|Hc]; [exists x; split; [left|]; auto|].
           destruct (Hfrom c Hc) as (y & Hy & Hey). exists y. split; [right|]; auto.
    + destruct (IH acc) as (rest & Hfold & Hnd & Hnew & Hfrom).
      exists rest. repeat split; auto.
      intros c Hc. destruct (Hfrom c Hc) as (y & Hy & Hey). exists y. split; [right|]; auto.
Qed.

Lemma fold_add_keeps (xs : list X) (acc : list A) (k : K) :
  In k (List.map key acc) -> In k (List.map key (List.fold_left add xs acc)).
Proof.
  intros Hin. destruct (fold_add_shape xs acc) as (rest & -> & _).
  rewrite List.map_app, List.in_app_iff. left. exact Hin.
Qed.

Lemma fold_add_covers (xs : list X) (acc : list A) (x : X) (e : A) :
  In x xs -> entry x = Some e ->
  In (key e) (List.map key (List.fold_left add xs acc)).
Proof.
  revert acc. induction xs as [|y xs IH]; intros acc Hin He; [destruct Hin|].
  cbn [List.fold_left]. destruct Hin as [->|Hin]; [|apply IH; assumption].
  apply fold_add_keeps. rewrite add_spec, He.
  destruct (List.existsb _ acc) eqn:Hhas.
  - apply has_key_In, Hhas.
  - rewrite List.map_app, List.in_app_iff. right. left. reflexivity.
Qed.

End AppendNew.

(** ** The colours offered *)

Lemma colorEntry_fields (p : PageProduct) (c : Color) :
  colorEntry p = Some c ->
  colorOwner c = p /\ colorCodeOf p = Some (colorCode c) /\
  colorImage c = pageFeaturedImage p /\
  String.prefix "#" (colorFormattedCode c) = true.
Proof.
  unfold colorEntry, colorCodeOf.
  destruct (findTag "colorCode:" (pageTags p)) as [tag|]; [|discriminate].
  intros [= <-]. cbn [colorOwner colorCode colorImage colorFormattedCode].
  repeat split.
  unfold JSText.startsWith.
  destruct (String.prefix "#" (tagValue "colorCode:" tag)) eqn:Hp; [exact Hp|].
  apply (prefix_app "#").
Qed.

Lemma addColor_spec (acc : list Color) (p : PageProduct) :
  addColor acc p =
  match colorEntry p with
  | Some e =>
      if List.existsb (fun a => String.eqb (colorCode a) (colorCode e)) acc
      then acc else (acc ++ [e])%list
  | None => acc
  end.
Proof. reflexivity. Qed.

(** X13: the colours offered have pairwise distinct codes; each is the
    entry of the product it carries, which is the page's product or a
    related product, and its formatted code starts with [#]; the
    page's product, when it has a colour code, comes first with its
    own entry, whatever the related products are; and every colour
    code of the page's product or of a related product is offered. *)
Theorem swatchColors_invariant
    (currentProduct : PageProduct) (allProducts : list PageProduct) :
  List.NoDup (List.map colorCode (swatchColors currentProduct allProducts)) /\
  (forall c,
      In c (swatchColors currentProduct allProducts) ->
      colorEntry (colorOwner c) = Some c /\
      (colorOwner c = currentProduct \/ In (colorOwner c) allProducts) /\
      String.prefix "#" (colorFormattedCode c) = true) /\
  (forall e,
      colorEntry currentProduct = Some e ->
      exists rest, swatchColors currentProduct allProducts = e :: rest) /\
  (forall p code,
      p = currentProduct \/ In p allProducts ->
      colorCodeOf p = Some code ->
      In code (List.map colorCode (swatchColors currentProduct allProducts))).
Proof.
  unfold swatchColors.
  set (first := match colorEntry currentProduct with Some e => [e] | None => [] end).
  destruct (fold_add_shape _ _ _ colorEntry colorCode String.eqb addColor
              String.eqb_eq addColor_spec allProducts first)
    as (rest & Hfold & Hnd & Hnew & Hfrom).
  assert (forall c, In c first -> colorEntry currentProduct = Some c) as Hfirst.
  { intros c. subst first. destruct (colorEntry currentProduct); [|intros []].
    intros [<-|[]]. reflexivity. }
  split; [|split; [|split]].
  - rewrite Hfold, List.map_app. subst first.
    destruct (colorEntry currentProduct) as [e|]; [|exact Hnd].
    cbn [List.map List.app]. constructor; [|exact Hnd].
    intros (c & Hkc & Hc)%List.in_map_iff. apply (Hnew c Hc). left. symmetry. exact Hkc.
  - intros c Hc. rewrite Hfold in Hc. apply List.in_app_iff in Hc as [Hc|Hc].
    + apply Hfirst in Hc. destruct (colorEntry_fields _ _ Hc) as (Hown & _ & _ & Hfmt).
      rewrite Hown. auto.
    + destruct (Hfrom c Hc) as (p & Hp & Hentry).
      destruct (colorEntry_fields _ _ Hentry) as (Hown & _ & _ & Hfmt).
      rewrite Hown. auto.
  - intros e He. rewrite Hfold. subst first. rewrite He. exists rest. reflexivity.
  - intros p code Hp Hcode.
    assert (exists e, colorEntry p = Some e /\ colorCode e = code) as (e & He & <-).
    { unfold colorCodeOf in Hcode. unfold colorEntry.
      destruct (findTag "colorCode:" (pageTags p)) as [tag|]; [|discriminate].
      injection Hcode as <-. eexists. split; reflexivity. }
    destruct Hp as [->|Hp].
    + apply (fold_add_keeps _ _ _ colorEntry colorCode String.eqb addColor
               String.eqb_eq addColor_spec).
      subst first. rewrite He. left. reflexivity.
    + apply (fold_add_covers _ _ _ colorEntry colorCode String.eqb addColor
               String.eqb_eq addColor_spec allProducts first p e Hp He).
Qed.

Lemma colorCodeOf_tag_witness :
  colorCodeOf PageCatalogue.blue = Some "1F3A93" /\
  JSText.startsWith "colorCode:" "ProductID:1001" = false.
Proof.
  split.
  - apply (proj1 (colorCodeOf_tag PageCatalogue.blue)
             [ "ProductID:1001"; "colorCode: 1F3A93 "; "colorName:Royal Blue" ]
             " 1F3A93 "); reflexivity.
  - apply (proj1 (proj2 (proj2 (colorCodeOf_tag PageCatalogue.untagged))) eq_refl
             [ "ProductID:1001" ] "ProductID:1001"); [reflexivity | left; reflexivity].
Defined.

Lemma swatchColors_invariant_witness :
  In "#C0392B"
     (List.map colorCode
        (swatchColors PageCatalogue.blue
           [ PageCatalogue.red; PageCatalogue.blue; PageCatalogue.untagged ])).
Proof.
  apply (proj2 (proj2 (proj2 (swatchColors_invariant PageCatalogue.blue
                                [ PageCatalogue.red; PageCatalogue.blue;
                                  PageCatalogue.untagged ])))
           PageCatalogue.red "#C0392B").
  - right. left. reflexivity.
  - reflexivity.
Defined.

(** ** The selected colour and its product *)

Lemma selectedColorObj_unique (colors : list Color) (c : Color) :
  List.NoDup (List.map colorCode colors) -> In c colors ->
  selectedColorObj colors (Some (colorCode c)) = Some c.
Proof.
  unfold selectedColorObj. induction colors as [|d colors IH]; intros Hnd Hin; [destruct Hin|].
  cbn [List.map] in Hnd. apply List.NoDup_cons_iff in Hnd as [Hfresh Hnd].
  cbn [List.find JS.strictEq].
  destruct (String.eqb_spec (colorCode d) (colorCode c)) as [He|Hne].
  - destruct Hin as [->|Hin]; [reflexivity|].
    exfalso. apply Hfresh. rewrite He. apply List.in_map, Hin.
  - destruct Hin as [->|Hin]; [contradiction|]. apply IH; assumption.
Qed.

(** X14: from the initial state of the page and through any series of
    colour selections among the colours offered and of image reports,
    the selected colour product is the page's product or a related
    product, the selected colour is that product's colour code, and
    the entry the dropdown shows as selected carries that very
    product. *)
Theorem page_state_invariant
    (product : PageProduct) (allProducts : list PageProduct) (events : list PageEvent) :
  Forall (fun event =>
            match event with
            | ColorSelected color => In color (swatchColors product allProducts)
            | ColorsExtracted _ => True
            end) events ->
  exists p,
    stateColorProduct (List.fold_left pageStep events (initialState product)) = Some p /\
    (p = product \/ In p allProducts) /\
    colorCodeOf p = stateColor (List.fold_left pageStep events (initialState product)) /\
    (forall code,
        stateColor (List.fold_left pageStep events (initialState product)) = Some code ->
        exists c,
          selectedColorObj (swatchColors product allProducts) (Some code) = Some c /\
          colorOwner c = p).
Proof.
  destruct (swatchColors_invariant product allProducts) as (Hnd & Hin & Hfirst & _).
  assert (forall st,
             (exists p,
                 stateColorProduct st = Some p /\
                 (p = product \/ In p allProducts) /\
                 colorCodeOf p = stateColor st /\
                 (forall code,
                     stateColor st = Some code ->
                     exists c,
                       selectedColorObj (swatchColors product allProducts) (Some code)
                         = Some c /\
                       colorOwner c = p)) ->
             Forall (fun event =>
                       match event with
                       | ColorSelected color => In color (swatchColors product allProducts)
                       | ColorsExtracted _ => True
                       end) events ->
             exists p,
               stateColorProduct (List.fold_left pageStep events st) = Some p /\
               (p = product \/ In p allProducts) /\
               colorCodeOf p = stateColor (List.fold_left pageStep events st) /\
               (forall code,
                   stateColor (List.fold_left pageStep events st) = Some code ->
                   exists c,
                     selectedColorObj (swatchColors product allProducts) (Some code)
                       = Some c /\
                     colorOwner c = p)) as Hsteps.
  { induction events as [|event events IH]; intros st Hst Hall; [exact Hst|].
    apply List.Forall_cons_iff in Hall as [Hev Hall].
    cbn [List.fold_left]. apply IH; [|exact Hall].
    destruct event as [color|colorImages]; cbn [pageStep].
    - destruct (Hin color Hev) as (Hentry & Hown & _).
      destruct (colorEntry_fields _ _ Hentry) as (_ & Hcode & _).
      exists (colorOwner color). cbn. repeat split; auto.
      intros code [= <-]. exists color. split; [|reflexivity].
      apply selectedColorObj_unique; assumption.
    - exact Hst. }
  intros Hall. apply Hsteps; [|exact Hall].
  exists product. cbn [initialState stateColorProduct stateColor].
  repeat split; auto.
  intros code Hcode.
  assert (exists e, colorEntry product = Some e /\ colorCode e = code) as (e & He & <-).
  { unfold colorCodeOf in Hcode. unfold colorEntry.
    destruct (findTag "colorCode:" (pageTags product)) as [tag|]; [|discriminate].
    injection Hcode as <-. eexists. split; reflexivity. }
  destruct (Hfirst e He) as [rest Hcolors]. exists e. split.
  - apply selectedColorObj_unique; [exact Hnd|]. rewrite Hcolors. left. reflexivity.
  - apply (colorEntry_fields _ _ He).
Qed.

Lemma page_state_invariant_witness :
  exists p,
    stateColorProduct
      (List.fold_left pageStep
         [ ColorsExtracted []; ColorSelected
             {| colorCode := "#C0392B"; colorFormattedCode := "#C0392B";
                colorName := "#C0392B"; colorOwner := PageCatalogue.red;
                colorImage := Some (PageCatalogue.picture "red-front") |} ]
         (initialState PageCatalogue.blue)) = Some p /\
    (p = PageCatalogue.blue \/ In p [ PageCatalogue.red; PageCatalogue.blue ]) /\
    colorCodeOf p =
      stateColor
        (List.fold_left pageStep
           [ ColorsExtracted []; ColorSelected
               {| colorCode := "#C0392B"; colorFormattedCode := "#C0392B";
                  colorName := "#C0392B"; colorOwner := PageCatalogue.red;
                  colorImage := Some (PageCatalogue.picture "red-front") |} ]
           (initialState PageCatalogue.blue)).
Proof.
  destruct (page_state_invariant PageCatalogue.blue
              [ PageCatalogue.red; PageCatalogue.blue ]
              [ ColorsExtracted []; ColorSelected
                  {| colorCode := "#C0392B"; colorFormattedCode := "#C0392B";
                     colorName := "#C0392B"; colorOwner := PageCatalogue.red;
                     colorImage := Some (PageCatalogue.picture "red-front") |} ])
    as (p & H1 & H2 & H3 & _).
  - apply List.Forall_cons; [exact I|].
    apply List.Forall_cons; [|apply List.Forall_nil].
    right. left. reflexivity.
  - exists p. auto.
Defined.

(** ** The images of the carousel *)

Lemma strictEq_eq (a b : JS.Str) : JS.strictEq a b = true <-> a = b.
Proof.
  destruct a as [x|], b as [y|]; simpl.
  - rewrite String.eqb_eq. split; congruence.
  - split; discriminate.
  - split; discriminate.
  - split; reflexivity.
Qed.

Lemma addVariantImage_spec (acc : list Image) (v : PageVariant) :
  addVariantImage acc v =
  match pageVariantImage v with
  | Some e =>
      if List.existsb (fun a => JS.strictEq (imageId a) (imageId e)) acc
      then acc else (acc ++ [e])%list
  | None => acc
  end.
Proof. reflexivity. Qed.

(** X15: the images collected for a product are its media images, in
    order and all of them, followed by images of its adjacent
    variants; the images that follow have pairwise distinct
    identifiers, none of which is the identifier of a media image; and
    the identifier of every adjacent variant's image is among the
    identifiers collected. *)
Theorem productImages_shape (p : PageProduct) :
  exists rest,
    productImages p = (mediaImages p ++ rest)%list /\
    List.NoDup (List.map imageId rest) /\
    (forall image,
        In image rest ->
        ~ In (imageId image) (List.map imageId (mediaImages p)) /\
        exists variant,
          In variant (default [] (pageAdjacentVariants p)) /\
          pageVariantImage variant = Some image) /\
    (forall variant image,
        In variant (default [] (pageAdjacentVariants p)) ->
        pageVariantImage variant = Some image ->
        In (imageId image) (List.map imageId (productImages p))).
Proof.
  unfold productImages. destruct (pageAdjacentVariants p) as [variants|]; cbn [default].
  - destruct (fold_add_shape _ _ _ pageVariantImage imageId JS.strictEq addVariantImage
                strictEq_eq addVariantImage_spec variants (mediaImages p))
      as (rest & Hfold & Hnd & Hnew & Hfrom).
    exists rest. split; [exact Hfold|]. split; [exact Hnd|]. split.
    + intros image Hin. split; [apply Hnew, Hin | apply Hfrom, Hin].
    + intros variant image Hv Himg.
      apply (fold_add_covers _ _ _ pageVariantImage imageId JS.strictEq addVariantImage
               strictEq_eq addVariantImage_spec variants (mediaImages p) variant image
               Hv Himg).
  - exists []. rewrite List.app_nil_r. split; [reflexivity|]. split; [constructor|].
    split; [intros ? [] | intros ? ? []].
Qed.

Lemma productImages_shape_witness :
  In (Some "blue-side") (List.map imageId (productImages PageCatalogue.blue)).
Proof.
  destruct (productImages_shape PageCatalogue.blue) as (rest & _ & _ & _ & Hcover).
  apply (Hcover (PageCatalogue.withImage Catalogue.blueM "blue-side")
           (PageCatalogue.picture "blue-side")).
  - right. left. reflexivity.
  - reflexivity.
Defined.

(** X16: when a colour offered is selected and its product has neither
    media images nor adjacent variant images, the carousel shows
    exactly the colour's own image, if it has one, whatever the image
    cache held before and whatever the page's selected variant shows. *)
Theorem allImages_of_selected_color
    (product : PageProduct) (allProducts : list PageProduct)
    (selectedVariantImage : option Image) (st : PageState)
    (color : Color) (image : Image) :
  In color (swatchColors product allProducts) ->
  productImages (colorOwner color) = [] ->
  colorImage color = Some image ->
  allImages product selectedVariantImage (selectColor color st) = [image].
Proof.
  intros Hin Hnone Himg.
  destruct (swatchColors_invariant product allProducts) as (_ & Hentry & _).
  destruct (Hentry color Hin) as (He & _).
  destruct (colorEntry_fields _ _ He) as (_ & _ & Hfeat & _).
  unfold allImages, selectColor, onColorSelect.
  cbn [stateColorProduct stateColor stateImageCache default from_option id].
  rewrite Hnone, Himg.
  destruct (colorCode color) as [|c rest] eqn:Hcode.
  - cbn [mbind option_bind]. rewrite <- Hfeat, Himg. reflexivity.
  - rewrite lookup_insert_eq. reflexivity.
Qed.

Lemma allImages_of_selected_color_witness :
  allImages PageCatalogue.blue None
    (selectColor
       {| colorCode := "#C0392B"; colorFormattedCode := "#C0392B";
          colorName := "#C0392B"; colorOwner := PageCatalogue.red;
          colorImage := Some (PageCatalogue.picture "red-front") |}
       (initialState PageCatalogue.blue)) =
  [ PageCatalogue.picture "red-front" ].
Proof.
  apply (allImages_of_selected_color PageCatalogue.blue
           [ PageCatalogue.red; PageCatalogue.blue ]).
  - right. left. reflexivity.
  - reflexivity.
  - reflexivity.
Defined.

(** X17: when a product has a media image or an adjacent variant with
    an image, the carousel shows the collected images of the selected
    colour product, or of the page's product when none is selected,
    and neither the image cache nor the selected variant's image is
    used; the carousel is empty only when there is no media image, no
    adjacent variant image, no cached image for the selected colour,
    no image of the selected colour product's first variant and no
    image of the page's selected variant. *)
Theorem allImages_fallback
    (product : PageProduct) (selectedVariantImage : option Image) (st : PageState) :
  (productImages (default product (stateColorProduct st)) <> [] ->
   allImages product selectedVariantImage st =
     productImages (default product (stateColorProduct st))) /\
  (allImages product selectedVariantImage st = [] ->
   mediaImages (default product (stateColorProduct st)) = [] /\
   (forall variant,
       In variant (default [] (pageAdjacentVariants (default product (stateColorProduct st)))) ->
       pageVariantImage variant = None) /\
   (forall code, stateColor st = Some code -> code <> "" ->
                 stateImageCache st !! code = None) /\
   stateColorProduct st ≫= pageFeaturedImage = None /\
   selectedVariantImage = None).
Proof.
  unfold allImages. set (p := default product (stateColorProduct st)). split.
  - destruct (productImages p); [contradiction | reflexivity].
  - destruct (productImages_shape p) as (rest & Hshape & _ & _ & Hcover).
    destruct (productImages p) as [|image images] eqn:Himages; [|discriminate].
    intros Hempty. split; [|split; [|split; [|split]]].
    + destruct (mediaImages p); [reflexivity | discriminate].
    + intros variant Hv. destruct (pageVariantImage variant) as [image|] eqn:Hi;
        [|reflexivity].
      destruct (Hcover variant image Hv Hi).
    + intros code Hcode Hne. rewrite Hcode in Hempty.
      destruct code as [|c rest']; [contradiction|].
      destruct (stateImageCache st !! String c rest'); [discriminate | reflexivity].
    + destruct (stateColorProduct st ≫= pageFeaturedImage); [|reflexivity].
      destruct (stateColor st) as [[|c rest']|];
        try destruct (stateImageCache st !! String c rest'); discriminate.
    + destruct selectedVariantImage; [|reflexivity].
      destruct (stateColor st) as [[|c rest']|];
        try destruct (stateImageCache st !! String c rest');
        destruct (stateColorProduct st ≫= pageFeaturedImage); discriminate.
Qed.

Lemma allImages_fallback_witness :
  allImages PageCatalogue.blue None (initialState PageCatalogue.blue) =
  productImages PageCatalogue.blue.
Proof.
  apply (proj1 (allImages_fallback PageCatalogue.blue None
                  (initialState PageCatalogue.blue))).
  discriminate.
Defined.

(** ** The image cache *)

Lemma fold_insert_other (l : list (string * Image)) (m : gmap string Image) (k : string) :
  ~ In k (List.map fst l) ->
  List.fold_left (fun cache entry => <[fst entry := snd entry]> cache) l m !! k = m !! k.
Proof.
  revert m. induction l as [|e l IH]; intros m Hk; [reflexivity|].
  cbn [List.fold_left]. rewrite IH.
  - apply lookup_insert_ne. intros He. apply Hk. left. exact He.
  - intros Hin. apply Hk. right. exact Hin.
Qed.

Lemma fold_insert_lookup (l : list (string * Image)) (m : gmap string Image)
    (k : string) (v : Image) :
  List.NoDup (List.map fst l) -> In (k, v) l ->
  List.fold_left (fun cache entry => <[fst entry := snd entry]> cache) l m !! k = Some v.
Proof.
  revert m. induction l as [|e l IH]; intros m Hnd Hin; [destruct Hin|].
  cbn [List.map] in Hnd. apply List.NoDup_cons_iff in Hnd as [Hfresh Hnd].
  cbn [List.fold_left]. destruct Hin as [->|Hin].
  - rewrite fold_insert_other by exact Hfresh. apply lookup_insert_eq.
  - apply IH; assumption.
Qed.

Lemma colorImageMap_keys (colors : list Color) (k : string) :
  In k (List.map fst (colorImageMap colors)) -> In k (List.map colorCode colors).
Proof.
  unfold colorImageMap. induction colors as [|c colors IH]; [intros []|].
  cbn [omap list_omap List.map]. destruct (colorImage c); cbn [fmap option_fmap option_map].
  - intros [<-|Hin]; [left; reflexivity | right; apply IH, Hin].
  - intros Hin. right. apply IH, Hin.
Qed.

Lemma colorImageMap_NoDup (colors : list Color) :
  List.NoDup (List.map colorCode colors) ->
  List.NoDup (List.map fst (colorImageMap colors)).
Proof.
  induction colors as [|c colors IH]; intros Hnd; [constructor|].
  cbn [List.map] in Hnd. apply List.NoDup_cons_iff in Hnd as [Hfresh Hnd].
  unfold colorImageMap. cbn [omap list_omap].
  destruct (colorImage c); cbn [fmap option_fmap option_map List.map fst].
  - constructor; [|apply IH, Hnd]. intros Hin. apply Hfresh, colorImageMap_keys, Hin.
  - apply IH, Hnd.
Qed.

(** X18: once [ProductColorSwatches] has reported the images of the
    colours it offers, the image cache holds, under the code of every
    offered colour that has an image, that image; entries under other
    keys, the selected colour and the selected colour product are as
    before. *)
Theorem onColorsExtracted_cache
    (product : PageProduct) (allProducts : list PageProduct) (st : PageState) :
  (forall color image,
      In color (swatchColors product allProducts) ->
      colorImage color = Some image ->
      stateImageCache
        (onColorsExtracted (colorImageMap (swatchColors product allProducts)) st)
        !! colorCode color = Some image) /\
  (forall key,
      ~ In key (List.map colorCode (swatchColors product allProducts)) ->
      stateImageCache
        (onColorsExtracted (colorImageMap (swatchColors product allProducts)) st)
        !! key = stateImageCache st !! key) /\
  stateColor (onColorsExtracted (colorImageMap (swatchColors product allProducts)) st)
    = stateColor st /\
  stateColorProduct (onColorsExtracted (colorImageMap (swatchColors product allProducts)) st)
    = stateColorProduct st.
Proof.
  destruct (swatchColors_invariant product allProducts) as (Hnd & _).
  unfold onColorsExtracted. cbn [stateImageCache stateColor stateColorProduct].
  split; [|split; [|split; reflexivity]].
  - intros color image Hin Himg.
    apply fold_insert_lookup; [apply colorImageMap_NoDup, Hnd|].
    unfold colorImageMap. apply list_elem_of_In, list_elem_of_omap.
    exists color. split; [apply list_elem_of_In, Hin|]. rewrite Himg. reflexivity.
  - intros key Hkey. apply fold_insert_other.
    intros Hin. apply Hkey, colorImageMap_keys, Hin.
Qed.

Lemma onColorsExtracted_cache_witness :
  stateImageCache
    (onColorsExtracted
       (colorImageMap (swatchColors PageCatalogue.blue [ PageCatalogue.red ]))
       (initialState PageCatalogue.blue))
    !! "#C0392B" = Some (PageCatalogue.picture "red-front").
Proof.
  apply (proj1 (onColorsExtracted_cache PageCatalogue.blue [ PageCatalogue.red ]
                  (initialState PageCatalogue.blue))
           {| colorCode := "#C0392B"; colorFormattedCode := "#C0392B";
              colorName := "#C0392B"; colorOwner := PageCatalogue.red;
              colorImage := Some (PageCatalogue.picture "red-front") |}).
  - right. left. reflexivity.
  - reflexivity.
Defined.

(** ** The carousel index *)

(** X19: for an array of at least one image and an index inside it,
    [goToPrevious] and [goToNext] give an index inside it again, and
    each undoes the other. *)
Theorem carousel_step (length index : Z) :
  (0 <= index < length)%Z ->
  (0 <= ProductImage.goToPrevious length index < length)%Z /\
  (0 <= ProductImage.goToNext length index < length)%Z /\
  ProductImage.goToNext length (ProductImage.goToPrevious length index) = index /\
  ProductImage.goToPrevious length (ProductImage.goToNext length index) = index.
Proof.
  intros Hrange. unfold ProductImage.goToPrevious, ProductImage.goToNext.
  destruct (Z.eqb_spec index 0), (Z.eqb_spec index (length - 1));
    repeat split;
    repeat match goal with
      | |- context [Z.eqb ?a ?b] => destruct (Z.eqb_spec a b)
      end; lia.
Qed.

Lemma carousel_step_witness :
  ProductImage.goToNext 3 (ProductImage.goToPrevious 3 0) = 0%Z.
Proof.
  apply (proj1 (proj2 (proj2 (carousel_step 3 0 ltac:(lia))))).
Defined.

Lemma indexAfter_range (length : Z) (clicks : list ProductImage.Click) (index : Z) :
  (0 <= index < length)%Z ->
  (0 <= List.fold_left (ProductImage.click length) clicks index < length)%Z.
Proof.
  revert index. induction clicks as [|c clicks IH]; intros index Hrange; [exact Hrange|].
  cbn [List.fold_left]. apply IH.
  destruct c; cbn [ProductImage.click]; apply (carousel_step length index Hrange).
Qed.

(** X20: with at least one image, after any series of clicks on the
    previous and next buttons from the first image, the index is
    inside the array and the current image exists. *)
Theorem carousel_currentImage (images : list Image) (clicks : list ProductImage.Click) :
  images <> [] ->
  exists image,
    ProductImage.currentImage images
      (ProductImage.indexAfter (Z.of_nat (length images)) clicks) = Some image.
Proof.
  intros Hne.
  assert (0 <= 0 < Z.of_nat (length images))%Z as H0.
  { destruct images; [contradiction|]. simpl length. lia. }
  pose proof (indexAfter_range _ clicks 0%Z H0) as Hrange.
  unfold ProductImage.currentImage, ProductImage.indexAfter.
  destruct (Z.ltb_spec (List.fold_left (ProductImage.click (Z.of_nat (length images)))
                          clicks 0%Z) 0); [lia|].
  destruct (List.nth_error images _) as [image|] eqn:Hnth; [eauto|].
  apply List.nth_error_None in Hnth. lia.
Qed.

Lemma carousel_currentImage_witness :
  exists image,
    ProductImage.currentImage (productImages PageCatalogue.blue)
      (ProductImage.indexAfter (Z.of_nat (length (productImages PageCatalogue.blue)))
         [ ProductImage.Previous; ProductImage.Previous; ProductImage.Next ])
    = Some image.
Proof.
  apply (carousel_currentImage (productImages PageCatalogue.blue)).
  discriminate.
Defined.

Lemma goToNext_mod (length index : Z) :
  (0 <= index < length)%Z ->
  ProductImage.goToNext length index = ((index + 1) mod length)%Z.
Proof.
  intros Hrange. unfold ProductImage.goToNext.
  destruct (Z.eqb_spec index (length - 1)) as [->|Hne].
  - replace (length - 1 + 1)%Z with length by lia. rewrite Z.mod_same by lia. reflexivity.
  - rewrite Z.mod_small by lia. reflexivity.
Qed.

Lemma next_clicks_mod (length : Z) (n : nat) (index : Z) :
  (0 <= index < length)%Z ->
  List.fold_left (ProductImage.click length) (List.repeat ProductImage.Next n) index =
  ((index + Z.of_nat n) mod length)%Z.
Proof.
  revert index. induction n as [|n IH]; intros index Hrange.
  - cbn. rewrite Z.add_0_r, Z.mod_small by lia. reflexivity.
  - cbn [List.repeat List.fold_left ProductImage.click].
    rewrite IH by (apply (carousel_step length index Hrange)).
    rewrite goToNext_mod by exact Hrange.
    rewrite Zplus_mod_idemp_l. f_equal. lia.
Qed.

(** X21: clicking the next button as many times as there are images
    comes back to the image one started from, and clicking it [n]
    times from the first image shows the image at index [n] modulo the
    number of images. *)
Theorem carousel_cycle (images : list Image) (index : Z) (n : nat) :
  (0 <= index < Z.of_nat (length images))%Z ->
  List.fold_left (ProductImage.click (Z.of_nat (length images)))
    (List.repeat ProductImage.Next (length images)) index = index /\
  ProductImage.indexAfter (Z.of_nat (length images)) (List.repeat ProductImage.Next n) =
    (Z.of_nat n mod Z.of_nat (length images))%Z.
Proof.
  intros Hrange. split.
  - rewrite next_clicks_mod by exact Hrange.
    rewrite <- (Z.mul_1_l (Z.of_nat (length images))) at 1.
    rewrite Z.mod_add by lia. apply Z.mod_small, Hrange.
  - unfold ProductImage.indexAfter. rewrite next_clicks_mod by lia. reflexivity.
Qed.

Lemma carousel_cycle_witness :
  List.fold_left (ProductImage.click (Z.of_nat (length (productImages PageCatalogue.blue))))
    (List.repeat ProductImage.Next (length (productImages PageCatalogue.blue))) 1%Z = 1%Z.
Proof.
  apply (proj1 (carousel_cycle (productImages PageCatalogue.blue) 1 0 ltac:(simpl; lia))).
Defined.

(** ** The colour dropdown *)

Lemma toLowerChar_idempotent (c : ascii) :
  JS.toLowerChar (JS.toLowerChar c) = JS.toLowerChar c.
Proof. destruct c as [[] [] [] [] [] [] [] []]; reflexivity. Qed.

Lemma toLowerCase_idempotent (s : string) :
  JS.toLowerCase (JS.toLowerCase s) = JS.toLowerCase s.
Proof.
  induction s as [|c s IH]; [reflexivity|].
  cbn [JS.toLowerCase]. rewrite toLowerChar_idempotent, IH. reflexivity.
Qed.

(** X22: the dropdown shows the name of the offered colour whose code
    is the selected colour, when that name is not empty, and "Select a
    color" when no colour is selected or the selected code is not
    offered; an empty search term lists every colour, and a search term
    lists the same colours in whatever letter case it is typed. *)
Theorem colorDropdown
    (product : PageProduct) (allProducts : list PageProduct) :
  (forall color,
      In color (swatchColors product allProducts) -> colorName color <> "" ->
      displayName (swatchColors product allProducts) (Some (colorCode color))
        = colorName color) /\
  displayName (swatchColors product allProducts) None = "Select a color" /\
  (forall code,
      ~ In code (List.map colorCode (swatchColors product allProducts)) ->
      displayName (swatchColors product allProducts) (Some code) = "Select a color") /\
  filteredColors (swatchColors product allProducts) "" = swatchColors product allProducts /\
  (forall searchTerm,
      filteredColors (swatchColors product allProducts) (JS.toLowerCase searchTerm) =
      filteredColors (swatchColors product allProducts) searchTerm).
Proof.
  destruct (swatchColors_invariant product allProducts) as (Hnd & _).
  set (colors := swatchColors product allProducts) in *. clearbody colors.
  split; [|split; [|split; [|split]]].
  - intros color Hin Hname. unfold displayName.
    rewrite (selectedColorObj_unique colors color Hnd Hin).
    destruct (colorName color); [contradiction | reflexivity].
  - unfold displayName, selectedColorObj.
    assert (List.find (fun c => JS.strictEq (Some (colorCode c)) None) colors = None) as ->.
    { clear Hnd. induction colors as [|c l IH]; [reflexivity | exact IH]. }
    reflexivity.
  - intros code Hcode. unfold displayName, selectedColorObj.
    destruct (List.find _ colors) as [c|] eqn:Hfind; [|reflexivity].
    apply List.find_some in Hfind as [Hin Heq]. apply strictEq_eq in Heq.
    injection Heq as <-. exfalso. apply Hcode, List.in_map, Hin.
  - unfold filteredColors. clear Hnd. induction colors as [|c l IH]; [reflexivity|].
    cbn [List.filter JS.toLowerCase JSText.includes].
    assert (JSText.includes "" (JS.toLowerCase (colorName c)) = true) as ->.
    { destruct (JS.toLowerCase (colorName c)); reflexivity. }
    f_equal. exact IH.
  - intros searchTerm. unfold filteredColors. rewrite toLowerCase_idempotent. reflexivity.
Qed.

Lemma colorDropdown_witness :
  displayName (swatchColors PageCatalogue.blue [ PageCatalogue.red ]) (Some "1F3A93")
    = "Royal Blue" /\
  displayName (swatchColors PageCatalogue.blue [ PageCatalogue.red ]) (Some "FFFFFF")
    = "Select a color".
Proof.
  split.
  - apply (proj1 (colorDropdown PageCatalogue.blue [ PageCatalogue.red ])
             {| colorCode := "1F3A93"; colorFormattedCode := "#1F3A93";
                colorName := "Royal Blue"; colorOwner := PageCatalogue.blue;
                colorImage := Some (PageCatalogue.picture "blue-front") |}).
    + left. reflexivity.
    + discriminate.
  - apply (proj1 (proj2 (proj2 (colorDropdown PageCatalogue.blue [ PageCatalogue.red ])))).
    simpl. intuition discriminate.
Defined.

(** ** The related-products query *)

(** Only the first tag that starts with [ProductID:] is read: when its
    remaining text is blank there is no query, whatever a later
    [ProductID:] tag says. *)
Lemma relatedSearchTerm_first_tag_only :
  relatedSearchTerm
    (Some {| pageId := "gid://shopify/Product/1";
             pageHandle := "shirt";
             pageTitle := "Shirt";
             pageTags := Some [ "ProductID: "; "ProductID:5" ];
             pageMedia := None;
             pageAdjacentVariants := None;
             pageFeaturedImage := None |}) = None.
Proof. reflexivity. Qed.

(** X23: the loader searches for related products exactly when the
    product has an identifier and the first of its tags that starts
    with [ProductID:] has remaining text that is not blank; the search
    term is then [tag:ProductID:] followed by that text without the
    white space around it.  Tags after the first one that starts with
    [ProductID:] are not read. *)
Theorem relatedSearchTerm_spec (currentProduct : option PageProduct) (term : string) :
  relatedSearchTerm currentProduct = Some term <->
  exists product tags rest,
    currentProduct = Some product /\ pageId product <> "" /\
    pageTags product = Some tags /\
    List.find (JSText.startsWith "ProductID:") tags = Some ("ProductID:" ++ rest) /\
    JS.trim rest <> "" /\
    term = "tag:ProductID:" ++ JS.trim rest.
Proof.
  unfold relatedSearchTerm, findTag, tagValue. split.
  - destruct currentProduct as [product|]; [|discriminate].
    destruct (pageId product) as [|c id] eqn:Hid; [discriminate|].
    destruct (pageTags product) as [tags|] eqn:Htags; [|discriminate].
    cbn [mbind option_bind].
    destruct (List.find _ tags) as [tag|] eqn:Hfind; [|discriminate].
    pose proof Hfind as Hfound.
    apply List.find_some in Hfound as [_ [rest ->]%prefix_split].
    pose proof (removeFirst_prefix "ProductID:" rest) as Hrest. rewrite Hrest.
    destruct (JS.trim rest) as [|d t] eqn:Htrim; [discriminate|].
    intros Hterm. exists product, tags, rest. rewrite Hid, Htrim.
    repeat split; try discriminate; congruence.
  - intros (product & tags & rest & -> & Hid & Htags & Hfind & Htrim & ->).
    destruct (pageId product); [contradiction|].
    rewrite Htags. cbn [mbind option_bind]. rewrite Hfind.
    pose proof (removeFirst_prefix "ProductID:" rest) as Hrest. rewrite Hrest.
    destruct (JS.trim rest); [contradiction | reflexivity].
Qed.

Lemma relatedSearchTerm_spec_witness :
  relatedSearchTerm (Some PageCatalogue.red) = Some "tag:ProductID:1001".
Proof.
  apply (proj2 (relatedSearchTerm_spec (Some PageCatalogue.red) "tag:ProductID:1001")).
  exists PageCatalogue.red, [ "colorCode:#C0392B"; "ProductID:1001" ], "1001".
  repeat split; discriminate.
Defined.
